(** * add-to-project-and-columns: a shallow embedding of [src/add-to-project.ts]

    The action reads its inputs, filters the triggering issue or pull request
    by label, resolves the project named by a URL, adds the content to the
    project (directly, or as a draft issue), sets a single-select field and
    assigns the latest iteration.

    Conventions of the embedding.
    - JavaScript strings are [string], a sequence of character codes; [===]
      on strings is [String.eqb], [>] is the lexicographic order on character
      codes ([String.compare]).  The case and white-space functions of the
      runtime ([toLowerCase], [toLocaleLowerCase], [trim]) are an interface,
      [Js.StringOps], and every property is proved for all its instances.
    - A value that may be [undefined] is an [option]; the optional chaining
      [a?.b] is [option_map] or [Js.optionalChain], and [a ?? b] is a [match]
      on [a].
    - The issue number of the payload is an integer, in [N].  The number
      [parseInt] makes of the digits of the project URL is a [Js.JsNumber]:
      the integer itself up to 2^53, where every integer is a Number value,
      and beyond that the double the runtime rounds it to, which is kept as a
      symbol and not computed.
    - An exception is the left injection of [Result]; [addToProject] is a
      computation in the monad [M], which threads the chronological list of
      observable events (log lines, outputs, GraphQL requests together with
      their answers) and stops at the first exception.
    - The libraries the action is linked with are inputs of the run: the
      [core.getInput] function, the Octokit client returned by
      [github.getOctokit] (one answer function per GraphQL operation of the
      source, each typed by the response interface the source declares for
      it, and free to depend on everything that happened before), and the
      webhook payload of [github.context].  Answers are taken at the declared
      interface types. *)

From Stdlib Require Import String Ascii List Bool Arith NArith Permutation.
From Stdlib Require Import DecimalString.
Import ListNotations.
Local Open Scope list_scope.
Local Open Scope string_scope.

(** ** JavaScript values and built-ins used by the source *)

Module Js.

(** Thrown values: [new Error(msg)], the [TypeError] of the runtime, and
    whatever a rejected request carries. *)
Inductive Exn : Type :=
| Error (message : string)
| TypeError (message : string)
| RequestError (message : string).

Definition Result (A : Type) : Type := (Exn + A)%type.

(** [`${v}`] for a string that may be [undefined]. *)
Definition show (v : option string) : string :=
  match v with
  | Some s => s
  | None => "undefined"
  end.

(** [`${n}`] for a number holding a natural number (decimal digits). *)
Definition showNumber (n : N) : string :=
  NilEmpty.string_of_uint (N.to_uint n).

Definition showNumberOpt (v : option N) (absent : string) : string :=
  match v with
  | Some n => showNumber n
  | None => absent
  end.

(** [a?.f] where the member [f] may itself be [undefined]. *)
Definition optionalChain {A B : Type} (a : option A) (f : A -> option B)
  : option B :=
  match a with
  | Some x => f x
  | None => None
  end.

(** [a === b] on values of type [string | undefined]. *)
Definition strictEq (a b : option string) : bool :=
  match a, b with
  | Some x, Some y => String.eqb x y
  | None, None => true
  | _, _ => false
  end.

(** [a > b] on strings. *)
Definition gt (a b : string) : bool :=
  match String.compare a b with
  | Gt => true
  | _ => false
  end.

(** [xs.includes(x)] on an array of strings. *)
Definition includes (xs : list string) (x : string) : bool :=
  existsb (String.eqb x) xs.

(** [xs.join(sep)]. *)
Definition join (sep : string) (xs : list string) : string :=
  String.concat sep xs.

(** [s.split(c)] for a one-character separator: never the empty array. *)
Fixpoint split (sep : ascii) (s : string) : list string :=
  match s with
  | EmptyString => [EmptyString]
  | String c s' =>
      if Ascii.eqb c sep then EmptyString :: split sep s'
      else match split sep s' with
           | w :: ws => String c w :: ws
           | [] => [String c EmptyString]
           end
  end.

(** [xs.find(p)]. *)
Definition find {A : Type} (p : A -> bool) (xs : list A) : option A :=
  List.find p xs.

(** [xs.reduce(f)] without an initial value: the first element seeds the
    accumulator, and the empty array is a [TypeError]. *)
Definition reduce {A : Type} (f : A -> A -> A) (xs : list A) : Result A :=
  match xs with
  | [] => inl (TypeError "Reduce of empty array with no initial value")
  | x :: rest => inr (fold_left f rest x)
  end.

(** The case and white-space functions of the runtime's string library.
    The development is parametric in them. *)
Class StringOps : Type := {
  toLowerCase : string -> string;
  toLocaleLowerCase : string -> string;
  trim : string -> string
}.

(** Decimal digits, as [\d] sees them. *)
Definition isDigit (c : ascii) : bool :=
  let n := nat_of_ascii c in (48 <=? n)%nat && (n <=? 57)%nat.

Definition digitValue (c : ascii) : N := N.of_nat (nat_of_ascii c - 48).

Fixpoint parseDigits (acc : option N) (s : string) : option N :=
  match s with
  | EmptyString => acc
  | String c s' =>
      if isDigit c then
        parseDigits (Some (10 * match acc with Some a => a | None => 0 end
                           + digitValue c)%N) s'
      else acc
  end.

(** The integer [parseInt(s, 10)] reads from an unsigned string: the value
    of the longest prefix of decimal digits, [None] when there is none. *)
Definition parseInt10 (s : string) : option N := parseDigits None s.

(** The Number values [parseInt] can return here.  [Rounded n] is the double
    the runtime makes of an integer [n] above 2^53: the nearest double for up
    to twenty significant digits, an approximation the implementation may
    choose beyond, infinity when [n] is too large.  The model names it and
    does not compute it. *)
Inductive JsNumber : Type :=
| NaN
| Integer (n : N)
| Rounded (n : N).

(** Every integer up to 2^53 is a Number value. *)
Definition exactLimit : N := 9007199254740992.

Definition toNumber (v : option N) : JsNumber :=
  match v with
  | None => NaN
  | Some n => if (n <=? exactLimit)%N then Integer n else Rounded n
  end.

(** [parseInt(s, 10)] on an unsigned string. *)
Definition parseInt (s : string) : JsNumber := toNumber (parseInt10 s).

(** [`${v}`] for a Number, where the model has it: the rendering of a rounded
    double is left to the runtime. *)
Definition numberText (v : JsNumber) : option string :=
  match v with
  | NaN => Some "NaN"
  | Integer n => Some (showNumber n)
  | Rounded _ => None
  end.

End Js.

(** An instance of the string library on the ASCII range: letters [A]-[Z]
    are lowered, and blanks (tab, line feed, vertical tab, form feed,
    carriage return, space) are trimmed on both sides. *)
Module AsciiOps.

Definition lowerChar (c : ascii) : ascii :=
  let n := nat_of_ascii c in
  if (65 <=? n)%nat && (n <=? 90)%nat then ascii_of_nat (n + 32) else c.

Fixpoint lower (s : string) : string :=
  match s with
  | EmptyString => EmptyString
  | String c s' => String (lowerChar c) (lower s')
  end.

Definition isBlank (c : ascii) : bool :=
  let n := nat_of_ascii c in
  ((9 <=? n)%nat && (n <=? 13)%nat) || (n =? 32)%nat.

Fixpoint trimStart (s : string) : string :=
  match s with
  | EmptyString => EmptyString
  | String c s' => if isBlank c then trimStart s' else s
  end.

Fixpoint trimEnd (s : string) : string :=
  match s with
  | EmptyString => EmptyString
  | String c s' =>
      match trimEnd s' with
      | EmptyString => if isBlank c then EmptyString else String c EmptyString
      | t => String c t
      end
  end.

Definition ops : Js.StringOps := {|
  Js.toLowerCase := lower;
  Js.toLocaleLowerCase := lower;
  Js.trim := fun s => trimEnd (trimStart s)
|}.

End AsciiOps.

(** ** The project URL pattern (source lines 6-7)

    [/^(?:https:\/\/)?github\.com\/(?<ownerType>orgs|users)\/(?<ownerName>[^/]+)\/projects\/(?<projectNumber>\d+)/]

    The matcher below is the backtracking reading of that pattern, anchored at
    the start of the string and free at its end: an optional group and an
    alternation try their first choice and fall back to the next one, and a
    greedy [+] takes the longest run first and gives characters back while the
    rest of the pattern fails. *)

Module UrlPattern.

Record Groups : Type := {
  ownerType : string;
  ownerName : string;
  projectNumber : string
}.

(** A literal at the head of the input: the rest of the input on success. *)
Fixpoint literal (p s : string) : option string :=
  match p with
  | EmptyString => Some s
  | String a p' =>
      match s with
      | String b s' => if Ascii.eqb a b then literal p' s' else None
      | EmptyString => None
      end
  end.

Definition orElse {A : Type} (a b : option A) : option A :=
  match a with
  | Some x => Some x
  | None => b
  end.

(** Greedy [X+] for a character class [cls], followed by the continuation
    [k], which receives the matched text and the rest of the input. *)
Fixpoint plus {A : Type} (cls : ascii -> bool) (s : string)
         (k : string -> string -> option A) : option A :=
  match s with
  | EmptyString => None
  | String c s' =>
      if cls c then
        orElse (plus cls s' (fun m r => k (String c m) r))
               (k (String c EmptyString) s')
      else None
  end.

Definition notSlash (c : ascii) : bool := negb (Ascii.eqb c "/").

(** Everything after the optional scheme. *)
Definition afterScheme (s : string) : option Groups :=
  match literal "github.com/" s with
  | None => None
  | Some s1 =>
      let withOwnerType (t : string) : option Groups :=
        match literal t s1 with
        | None => None
        | Some s2 =>
            match literal "/" s2 with
            | None => None
            | Some s3 =>
                plus notSlash s3 (fun name s4 =>
                  match literal "/projects/" s4 with
                  | None => None
                  | Some s5 =>
                      plus Js.isDigit s5 (fun num _ =>
                        Some {| ownerType := t;
                                ownerName := name;
                                projectNumber := num |})
                  end)
            end
        end in
      orElse (withOwnerType "orgs") (withOwnerType "users")
  end.

(** [projectUrl.match(urlParse)]: [None] is JavaScript's [null]. *)
Definition urlParse (projectUrl : string) : option Groups :=
  orElse (match literal "https://" projectUrl with
          | Some s => afterScheme s
          | None => None
          end)
         (afterScheme projectUrl).

End UrlPattern.

(** ** Response interfaces (source lines 9-75) *)

(** [{ id: string }], the shape of every node the responses mention. *)
Module Node.
Record t : Type := { id : string }.
End Node.

Record ProjectV2Owner : Type := { projectV2 : Node.t }.

Record ProjectNodeIDResponse : Type := {
  organization : option ProjectV2Owner;
  user : option ProjectV2Owner
}.

Record UpdatedItem : Type := { projectV2Item : Node.t }.

Record ProjectV2UpdateItemFieldValueResponse : Type := {
  updateProjectV2ItemFieldValue : UpdatedItem
}.

Record AddedItem : Type := { item : Node.t }.

Record ProjectAddItemResponse : Type := { addProjectV2ItemById : AddedItem }.

Record AddedDraft : Type := { projectItem : Node.t }.

Record ProjectV2AddDraftIssueResponse : Type := {
  addProjectV2DraftIssue : AddedDraft
}.

Module FieldOption.
Record t : Type := { id : string; name : string }.
End FieldOption.

Module SingleSelectField.
Record t : Type := { id : string; options : list FieldOption.t }.
End SingleSelectField.

Module SingleSelectFieldNode.
Record t : Type := { field : SingleSelectField.t }.
End SingleSelectFieldNode.

Module ProjectV2GetFieldAndOptionResponse.
Record t : Type := { node : SingleSelectFieldNode.t }.
End ProjectV2GetFieldAndOptionResponse.

Module IterationItem.
Record t : Type := { startDate : string; id : string }.
End IterationItem.

Record IterationConfiguration : Type := {
  iterations : list IterationItem.t
}.

Module IterationField.
Record t : Type := { id : string; configuration : IterationConfiguration }.
End IterationField.

Module IterationFieldNode.
Record t : Type := { field : IterationField.t }.
End IterationFieldNode.

Module ProjectV2GetIterationResponse.
Record t : Type := { node : IterationFieldNode.t }.
End ProjectV2GetIterationResponse.

(** ** The webhook payload read through [github.context.payload] *)

Module Payload.
Record Label : Type := { name : string }.
(** An issue or a pull request; [number] is its number, an integer. *)
Record Content : Type := {
  number : N;
  labels : option (list Label);
  node_id : option string;
  html_url : option string
}.
Record Owner : Type := { login : string }.
Record Repository : Type := { owner : Owner }.
Record t : Type := {
  issue : option Content;
  pull_request : option Content;
  repository : option Repository
}.
End Payload.

(** ** Owner kinds: the return type ['organization' | 'user'] *)

Inductive OwnerTypeQuery : Type := Organization | User.

(** The string the value stands for: it is spliced into the lookup query and
    indexes the lookup response. *)
Definition ownerTypeQueryName (q : OwnerTypeQuery) : string :=
  match q with
  | Organization => "organization"
  | User => "user"
  end.

(** [idResp[ownerTypeQuery]]. *)
Definition ownerEntry (idResp : ProjectNodeIDResponse) (q : OwnerTypeQuery)
  : option ProjectV2Owner :=
  match q with
  | Organization => organization idResp
  | User => user idResp
  end.

(** ** Observable events and the run monad *)

Import Js.

(** The GraphQL operations of the source, named after the operation names in
    the query texts, with the variables each is sent with. *)
Inductive Request : Type :=
| GetProject (ownerTypeQuery : OwnerTypeQuery)
             (projectOwnerName : option string) (projectNumber : JsNumber)
| AddIssueToProject (projectId contentId : option string)
| AddDraftIssueToProject (projectId title : option string)
| GetOptionField (projectId : option string) (fieldName : string)
| AddIssueToColumn (projectId : option string) (itemId fieldId : string)
                   (fieldOption : option string)
| GetIteration (projectId : option string)
| AddIssueToIteration (projectId : option string)
                      (itemId fieldId iterationId : string).

Inductive Response : Type :=
| ProjectNodeID (r : ProjectNodeIDResponse)
| ProjectAddItem (r : ProjectAddItemResponse)
| ProjectV2AddDraftIssue (r : ProjectV2AddDraftIssueResponse)
| ProjectV2GetFieldAndOption (r : ProjectV2GetFieldAndOptionResponse.t)
| ProjectV2UpdateItemFieldValue (r : ProjectV2UpdateItemFieldValueResponse)
| ProjectV2GetIteration (r : ProjectV2GetIterationResponse.t).

(** [CoreDebugNumber label value] is [core.debug] of [label] followed by
    [`${value}`], see [numberText]. *)
Inductive Event : Type :=
| CoreDebug (message : string)
| CoreDebugNumber (label : string) (value : JsNumber)
| CoreInfo (message : string)
| CoreSetOutput (name value : string)
| Graphql (request : Request) (answer : Result Response).

Definition Trace : Type := list Event.

(** The client returned by [github.getOctokit]: for each operation, the
    answer of [octokit.graphql] given the events that precede the request and
    the request's variables.  [inl] is a rejected promise. *)
Record Octokit : Type := {
  getProject :
    Trace -> OwnerTypeQuery -> option string -> JsNumber ->
    Result ProjectNodeIDResponse;
  addIssueToProject :
    Trace -> option string -> option string -> Result ProjectAddItemResponse;
  addDraftIssueToProject :
    Trace -> option string -> option string ->
    Result ProjectV2AddDraftIssueResponse;
  getOptionField :
    Trace -> option string -> string ->
    Result ProjectV2GetFieldAndOptionResponse.t;
  addIssueToColumn :
    Trace -> option string -> string -> string -> option string ->
    Result ProjectV2UpdateItemFieldValueResponse;
  getIteration :
    Trace -> option string -> Result ProjectV2GetIterationResponse.t;
  addIssueToIteration :
    Trace -> option string -> string -> string -> string ->
    Result ProjectV2UpdateItemFieldValueResponse
}.

(** What a run is given. [getInput name required] is
    [core.getInput(name, {required})] and [getOctokit token] is
    [github.getOctokit(token)]; either may throw. *)
Record Env : Type := {
  getInput : string -> bool -> Result string;
  getOctokit : string -> Result Octokit;
  payload : Payload.t
}.

Definition M (A : Type) : Type := Trace -> Result A * Trace.

Definition ret {A : Type} (a : A) : M A := fun tr => (inr a, tr).

Definition throw {A : Type} (e : Exn) : M A := fun tr => (inl e, tr).

Definition bind {A B : Type} (m : M A) (k : A -> M B) : M B :=
  fun tr =>
    match m tr with
    | (inr a, tr') => k a tr'
    | (inl e, tr') => (inl e, tr')
    end.

Definition lift {A : Type} (r : Result A) : M A := fun tr => (r, tr).

Definition emit (e : Event) : M unit := fun tr => (inr tt, (tr ++ [e])%list).

Definition mapResult {A B : Type} (f : A -> B) (r : Result A) : Result B :=
  match r with
  | inl e => inl e
  | inr a => inr (f a)
  end.

(** [await octokit.graphql<R>(...)]: the request and its answer are appended
    to the trace, and a rejection is rethrown. *)
Definition graphql {R : Type} (request : Request) (tag : R -> Response)
           (answer : Trace -> Result R) : M R :=
  fun tr =>
    let r := answer tr in
    (r, (tr ++ [Graphql request (mapResult tag r)])%list).

Declare Scope run_scope.
Delimit Scope run_scope with run.
Notation "x <- m ;; k" := (bind m (fun x => k))
  (at level 100, m at next level, right associativity) : run_scope.
Notation "m ;; k" := (bind m (fun _ => k))
  (at level 100, right associativity) : run_scope.
Local Open Scope run_scope.

Definition debug (message : string) : M unit := emit (CoreDebug message).
Definition debugNumber (label : string) (value : JsNumber) : M unit :=
  emit (CoreDebugNumber label value).
Definition info (message : string) : M unit := emit (CoreInfo message).
Definition setOutput (name value : string) : M unit :=
  emit (CoreSetOutput name value).

(** ** [mustGetOwnerTypeQuery] (source lines 309-317) *)

Definition mustGetOwnerTypeQuery (ownerType : option string)
  : Result OwnerTypeQuery :=
  let ownerTypeQuery :=
    if strictEq ownerType (Some "orgs") then Some Organization
    else if strictEq ownerType (Some "users") then Some User
    else None in
  match ownerTypeQuery with
  | None =>
      inl (Error ("Unsupported ownerType: " ++ show ownerType
                  ++ ". Must be one of 'orgs' or 'users'"))
  | Some q => inr q
  end.

(** ** [addToProject] (source lines 77-307) *)

Section AddToProject.

Context {ops : StringOps}.

(** The [labeled] input as a list of labels (lines 83-88). *)
Definition parseLabeled (input : string) : list string :=
  filter (fun l => (0 <? String.length l)%nat)
         (map (fun l => toLowerCase (trim l)) (split "," input)).

(** The [label-operator] input, normalised (line 89). *)
Definition parseLabelOperator (input : string) : string :=
  toLocaleLowerCase (trim input).

(** [github.context.payload.issue ?? github.context.payload.pull_request]
    (line 93). *)
Definition triggeringContent (p : Payload.t) : option Payload.Content :=
  match Payload.issue p with
  | Some i => Some i
  | None => Payload.pull_request p
  end.

(** [(issue?.labels ?? []).map(l => l.name.toLowerCase())] (line 94). *)
Definition contentLabels (issue : option Payload.Content) : list string :=
  map (fun l => toLowerCase (Payload.name l))
      (match issue with
       | Some i => match Payload.labels i with
                   | Some ls => ls
                   | None => []
                   end
       | None => []
       end).

(** [github.context.payload.repository?.owner.login] (line 95). *)
Definition repositoryOwner (p : Payload.t) : option string :=
  option_map (fun r => Payload.login (Payload.owner r)) (Payload.repository p).

(** The label filter (lines 99-115): [Some message] when the run logs
    [message] and returns, [None] when it goes on to line 117. *)
Definition labelFilter (labelOperator : string)
           (labeled issueLabels : list string) (issueNumber : option N)
  : option string :=
  if labelOperator =? "and" then
    if negb (forallb (fun l => includes issueLabels l) labeled) then
      Some ("Skipping issue " ++ showNumberOpt issueNumber "undefined"
            ++ " because it doesn't match all the labels: "
            ++ join ", " labeled)
    else None
  else if labelOperator =? "not" then
    if (0 <? List.length labeled)%nat
       && existsb (fun l => includes labeled l) issueLabels then
      Some ("Skipping issue " ++ showNumberOpt issueNumber "undefined"
            ++ " because it contains one of the labels: "
            ++ join ", " labeled)
    else None
  else
    if (0 <? List.length labeled)%nat
       && negb (existsb (fun l => includes labeled l) issueLabels) then
      Some ("Skipping issue " ++ showNumberOpt issueNumber "undefined"
            ++ " because it does not have one of the labels: "
            ++ join ", " labeled)
    else None.

(** The reducer of line 278. *)
Definition laterIteration (previous current : IterationItem.t)
  : IterationItem.t :=
  if gt (IterationItem.startDate previous) (IterationItem.startDate current)
  then previous else current.

(** Lines 277-279: the iteration whose identifier is sent. *)
Definition selectIteration (iterations : list IterationItem.t)
  : Result IterationItem.t :=
  reduce laterIteration iterations.

(** Line 228: the identifier of the first option with the configured name. *)
Definition findFieldOption (options : list FieldOption.t)
           (fieldOptionName : string) : option string :=
  option_map FieldOption.id
    (find (fun option => FieldOption.name option =? fieldOptionName) options).

Definition invalidProjectUrl (projectUrl : string) : Exn :=
  Error ("Invalid project URL: " ++ projectUrl
         ++ ". Project URL should match the format "
         ++ "https://github.com/<orgs-or-users>/<ownerName>/projects/<projectNumber>").

(** Lines 117-307: what a run does once the label filter has let it pass. *)
Definition addToProjectAfterFilter (octokit : Octokit)
           (projectUrl fieldName fieldOptionName : string)
           (issue : option Payload.Content) (issueOwnerName : option string)
  : M unit :=
  debug ("Project URL: " ++ projectUrl) ;;
  match UrlPattern.urlParse projectUrl with
  | None => throw (invalidProjectUrl projectUrl)
  | Some groups =>
      let projectOwnerName := Some (UrlPattern.ownerName groups) in
      let projectNumber := parseInt (UrlPattern.projectNumber groups) in
      let ownerType := Some (UrlPattern.ownerType groups) in
      ownerTypeQuery <- lift (mustGetOwnerTypeQuery ownerType) ;;
      debug ("Project owner: " ++ show projectOwnerName) ;;
      debugNumber "Project number: " projectNumber ;;
      debug ("Project owner type: " ++ show ownerType) ;;
      (* First, request the project's node ID. *)
      idResp <- graphql (GetProject ownerTypeQuery projectOwnerName projectNumber)
                        ProjectNodeID
                        (fun tr => getProject octokit tr ownerTypeQuery
                                              projectOwnerName projectNumber) ;;
      let projectId :=
        option_map (fun o => Node.id (projectV2 o))
                   (ownerEntry idResp ownerTypeQuery) in
      let contentId := optionalChain issue Payload.node_id in
      debug ("Project node ID: " ++ show projectId) ;;
      debug ("Content ID: " ++ show contentId) ;;
      (* Next, add the issue to the project: directly when it has the same
         owner as the project, as a draft issue otherwise. *)
      createdItem <-
        (if strictEq issueOwnerName projectOwnerName then
           info "Creating project item" ;;
           addResp <- graphql (AddIssueToProject projectId contentId)
                              ProjectAddItem
                              (fun tr => addIssueToProject octokit tr
                                                           projectId contentId) ;;
           let itemId := Node.id (item (addProjectV2ItemById addResp)) in
           setOutput "itemId" (Node.id (item (addProjectV2ItemById addResp))) ;;
           ret itemId
         else
           info "Creating draft issue in project" ;;
           let title := optionalChain issue Payload.html_url in
           addResp <- graphql (AddDraftIssueToProject projectId title)
                              ProjectV2AddDraftIssue
                              (fun tr => addDraftIssueToProject octokit tr
                                                                projectId title) ;;
           let itemId :=
             Node.id (projectItem (addProjectV2DraftIssue addResp)) in
           setOutput "itemId"
                     (Node.id (projectItem (addProjectV2DraftIssue addResp))) ;;
           ret itemId) ;;
      debug ("Created Item ID: " ++ createdItem) ;;
      (* Find the field and option. *)
      queryFieldResp <- graphql (GetOptionField projectId fieldName)
                                ProjectV2GetFieldAndOption
                                (fun tr => getOptionField octokit tr
                                                          projectId fieldName) ;;
      let field :=
        SingleSelectFieldNode.field
          (ProjectV2GetFieldAndOptionResponse.node queryFieldResp) in
      let fieldId := SingleSelectField.id field in
      debug ("Field Option ID: " ++ fieldId) ;;
      let fieldOption :=
        findFieldOption (SingleSelectField.options field) fieldOptionName in
      debug ("Field Option option ID: " ++ show fieldOption) ;;
      (* Place the item in the desired column. *)
      columnMoveResp <-
        graphql (AddIssueToColumn projectId createdItem fieldId fieldOption)
                ProjectV2UpdateItemFieldValue
                (fun tr => addIssueToColumn octokit tr projectId createdItem
                                            fieldId fieldOption) ;;
      setOutput "itemId"
        (Node.id (projectV2Item (updateProjectV2ItemFieldValue columnMoveResp))) ;;
      (* Find the latest iteration. *)
      queryIterationResp <- graphql (GetIteration projectId)
                                    ProjectV2GetIteration
                                    (fun tr => getIteration octokit tr projectId) ;;
      let iterationField :=
        IterationFieldNode.field
          (ProjectV2GetIterationResponse.node queryIterationResp) in
      let iterationFieldId := IterationField.id iterationField in
      iteration <- lift (selectIteration
                           (iterations (IterationField.configuration
                                          iterationField))) ;;
      let iterationId := IterationItem.id iteration in
      debug ("Iteration Field ID: " ++ iterationFieldId) ;;
      debug ("Iteration ID: " ++ iterationId) ;;
      (* Place the item in that iteration. *)
      iterationMoveResp <-
        graphql (AddIssueToIteration projectId createdItem iterationFieldId
                                     iterationId)
                ProjectV2UpdateItemFieldValue
                (fun tr => addIssueToIteration octokit tr projectId createdItem
                                               iterationFieldId iterationId) ;;
      setOutput "itemId"
        (Node.id (projectV2Item
                    (updateProjectV2ItemFieldValue iterationMoveResp)))
  end.

Definition addToProject (env : Env) : M unit :=
  projectUrl <- lift (getInput env "project-url" true) ;;
  ghToken <- lift (getInput env "github-token" true) ;;
  fieldName <- lift (getInput env "field-name" true) ;;
  fieldOptionName <- lift (getInput env "field-option" true) ;;
  labeledInput <- lift (getInput env "labeled" false) ;;
  let labeled := parseLabeled labeledInput in
  labelOperatorInput <- lift (getInput env "label-operator" false) ;;
  let labelOperator := parseLabelOperator labelOperatorInput in
  octokit <- lift (getOctokit env ghToken) ;;
  let issue := triggeringContent (payload env) in
  let issueLabels := contentLabels issue in
  let issueOwnerName := repositoryOwner (payload env) in
  debug ("Issue/PR owner: " ++ show issueOwnerName) ;;
  (* Ensure the issue matches the [labeled] filter. *)
  match labelFilter labelOperator labeled issueLabels
                    (option_map Payload.number issue) with
  | Some message => info message
  | None =>
      addToProjectAfterFilter octokit projectUrl fieldName fieldOptionName
                              issue issueOwnerName
  end.

(** A run starts with nothing observed yet. *)
Definition run (env : Env) : Result unit * Trace := addToProject env [].

End AddToProject.

(** ** Reading traces *)

Definition requestOf (e : Event) : option Request :=
  match e with
  | Graphql request _ => Some request
  | _ => None
  end.

(** The GraphQL requests of a trace, in the order they were sent. *)
Fixpoint requests (tr : Trace) : list Request :=
  match tr with
  | [] => []
  | e :: tr' =>
      match requestOf e with
      | Some r => r :: requests tr'
      | None => requests tr'
      end
  end.

(** The two item-creation mutations (lines 164-178 and 185-200). *)
Definition isItemCreation (r : Request) : bool :=
  match r with
  | AddIssueToProject _ _ | AddDraftIssueToProject _ _ => true
  | _ => false
  end.

Definition isColumnUpdate (r : Request) : bool :=
  match r with
  | AddIssueToColumn _ _ _ _ => true
  | _ => false
  end.

Definition isIterationUpdate (r : Request) : bool :=
  match r with
  | AddIssueToIteration _ _ _ _ => true
  | _ => false
  end.

(** The run went past the label filter: it logged the project URL
    (line 117, the first statement after the filter). *)
Definition passedFilter (tr : Trace) : Prop :=
  exists projectUrl, In (CoreDebug ("Project URL: " ++ projectUrl)) tr.

Definition failed {A : Type} (r : Result A) : Prop :=
  exists e, r = inl e.

(** The values [core.getInput] hands to a run. *)
Record Inputs : Type := {
  projectUrl : string;
  ghToken : string;
  fieldName : string;
  fieldOptionName : string;
  labeledInput : string;
  labelOperatorInput : string
}.

(** The run reads the inputs [i] and obtains the client [octokit]: none of
    the calls of lines 78-91 throws. *)
Definition provides (env : Env) (i : Inputs) (octokit : Octokit) : Prop :=
  getInput env "project-url" true = inr (projectUrl i)
  /\ getInput env "github-token" true = inr (ghToken i)
  /\ getInput env "field-name" true = inr (fieldName i)
  /\ getInput env "field-option" true = inr (fieldOptionName i)
  /\ getInput env "labeled" false = inr (labeledInput i)
  /\ getInput env "label-operator" false = inr (labelOperatorInput i)
  /\ getOctokit env (ghToken i) = inr octokit.

(** The first line every run logs (line 97). *)
Definition ownerLine (env : Env) : Event :=
  CoreDebug ("Issue/PR owner: " ++ show (repositoryOwner (payload env))).

(** ** Proof automation for runs *)

Ltac unfold_run :=
  unfold run, addToProject, addToProjectAfterFilter, bind, lift, ret, throw,
    debug, debugNumber, info, setOutput, emit, graphql.

(** One case per scrutinee of the run: inputs, filter, URL, owner kind,
    owner comparison, and the answer to each request. *)
Ltac split_run :=
  repeat (cbn beta iota delta [fst snd app mapResult];
          match goal with
          | |- context [match ?x with _ => _ end] =>
              lazymatch x with
              | context [match _ with _ => _ end] => fail
              | _ => destruct x eqn:?
              end
          end).

Ltac use_inputs H :=
  let H1 := fresh in let H2 := fresh in let H3 := fresh in
  let H4 := fresh in let H5 := fresh in let H6 := fresh in
  let H7 := fresh in
  destruct H as (H1 & H2 & H3 & H4 & H5 & H6 & H7);
  rewrite ?H1, ?H2, ?H3, ?H4, ?H5, ?H6, ?H7.

Ltac trace_member :=
  cbn beta iota delta [In fst snd app mapResult];
  repeat first [left; reflexivity | right].

Ltac find_event H :=
  cbn beta iota delta [In fst snd app mapResult] in H;
  repeat (destruct H as [H|H]; [try discriminate H|]);
  try contradiction H.

Ltac find_request H :=
  cbn beta iota delta [In fst snd app mapResult requests requestOf] in H;
  repeat (destruct H as [H|H]; [try discriminate H|]);
  try contradiction H.

(** ** Sample runs *)

Module Sample.

Definition node (i : string) : Node.t := {| Node.id := i |}.

Definition projectOfOrg (i : string) : ProjectNodeIDResponse :=
  {| organization := Some {| projectV2 := node i |}; user := None |}.

Definition noProject : ProjectNodeIDResponse :=
  {| organization := None; user := None |}.

Definition updated (i : string) : ProjectV2UpdateItemFieldValueResponse :=
  {| updateProjectV2ItemFieldValue := {| projectV2Item := node i |} |}.

Definition statusField (options : list FieldOption.t)
  : ProjectV2GetFieldAndOptionResponse.t :=
  {| ProjectV2GetFieldAndOptionResponse.node :=
       {| SingleSelectFieldNode.field :=
            {| SingleSelectField.id := "F_status";
               SingleSelectField.options := options |} |} |}.

Definition todoDone : list FieldOption.t :=
  [ {| FieldOption.id := "opt1"; FieldOption.name := "Todo" |};
    {| FieldOption.id := "opt2"; FieldOption.name := "Done" |} ].

Definition iterationField (its : list IterationItem.t)
  : ProjectV2GetIterationResponse.t :=
  {| ProjectV2GetIterationResponse.node :=
       {| IterationFieldNode.field :=
            {| IterationField.id := "F_iter";
               IterationField.configuration := {| iterations := its |} |} |} |}.

Definition twoIterations : list IterationItem.t :=
  [ {| IterationItem.startDate := "2024-01-01"; IterationItem.id := "a" |};
    {| IterationItem.startDate := "2024-02-01"; IterationItem.id := "b" |} ].

Definition sameDay : list IterationItem.t :=
  [ {| IterationItem.startDate := "2024-01-01"; IterationItem.id := "a" |};
    {| IterationItem.startDate := "2024-01-01"; IterationItem.id := "b" |} ].

(** A client whose answers do not depend on what it is asked. *)
Definition client (project : Result ProjectNodeIDResponse)
           (options : list FieldOption.t) (its : list IterationItem.t)
  : Octokit :=
  {| getProject := fun _ _ _ _ => project;
     addIssueToProject := fun _ _ _ =>
       inr {| addProjectV2ItemById := {| item := node "I_item" |} |};
     addDraftIssueToProject := fun _ _ _ =>
       inr {| addProjectV2DraftIssue := {| projectItem := node "I_draft" |} |};
     getOptionField := fun _ _ _ => inr (statusField options);
     addIssueToColumn := fun _ _ item _ _ => inr (updated item);
     getIteration := fun _ _ => inr (iterationField its);
     addIssueToIteration := fun _ _ item _ _ => inr (updated item) |}.

Definition inputs (projectUrl fieldOption labeled labelOperator : string)
           (name : string) (required : bool) : Result string :=
  if name =? "project-url" then inr projectUrl
  else if name =? "github-token" then inr "token"
  else if name =? "field-name" then inr "Status"
  else if name =? "field-option" then inr fieldOption
  else if name =? "labeled" then inr labeled
  else if name =? "label-operator" then inr labelOperator
  else inr "".

Definition bugIssue : Payload.Content :=
  {| Payload.number := 7;
     Payload.labels := Some [ {| Payload.name := "Bug" |} ];
     Payload.node_id := Some "C_7";
     Payload.html_url := Some "https://github.com/acme/repo/issues/7" |}.

Definition event (ownerLogin : string) : Payload.t :=
  {| Payload.issue := Some bugIssue;
     Payload.pull_request := None;
     Payload.repository :=
       Some {| Payload.owner := {| Payload.login := ownerLogin |} |} |}.

Definition env (projectUrl fieldOption labeled labelOperator ownerLogin : string)
           (octokit : Octokit) : Env :=
  {| getInput := inputs projectUrl fieldOption labeled labelOperator;
     getOctokit := fun _ => inr octokit;
     payload := event ownerLogin |}.

Definition acmeUrl : string := "https://github.com/orgs/acme/projects/12".

Definition inputsOf (url fieldOption labeled labelOperator : string) : Inputs :=
  {| projectUrl := url;
     ghToken := "token";
     fieldName := "Status";
     fieldOptionName := fieldOption;
     labeledInput := labeled;
     labelOperatorInput := labelOperator |}.

(** A board with the project, the options [Todo] and [Done], and two
    iterations. *)
Definition board : Octokit :=
  client (inr (projectOfOrg "P1")) todoDone twoIterations.

(** The same board when the lookup answers without an entry for the owner. *)
Definition boardWithoutEntry : Octokit :=
  client (inr noProject) todoDone twoIterations.

(** The same board whose lookup is rejected. *)
Definition boardRejecting : Octokit :=
  client (inl (RequestError "Could not resolve to a ProjectV2"))
         todoDone twoIterations.

(** A run on another payload. *)
Definition envOn (p : Payload.t)
           (projectUrl fieldOption labeled labelOperator : string)
           (octokit : Octokit) : Env :=
  {| getInput := inputs projectUrl fieldOption labeled labelOperator;
     getOctokit := fun _ => inr octokit;
     payload := p |}.

(** An event without [repository]. *)
Definition eventWithoutRepository : Payload.t :=
  {| Payload.issue := Some bugIssue;
     Payload.pull_request := None;
     Payload.repository := None |}.

(** An event with neither [issue] nor [pull_request]. *)
Definition eventWithoutContent : Payload.t :=
  {| Payload.issue := None;
     Payload.pull_request := None;
     Payload.repository :=
       Some {| Payload.owner := {| Payload.login := "acme" |} |} |}.

(** A pull request, with other labels and identifiers than [bugIssue]. *)
Definition featurePull : Payload.Content :=
  {| Payload.number := 8;
     Payload.labels := Some [ {| Payload.name := "feature" |} ];
     Payload.node_id := Some "C_8";
     Payload.html_url := Some "https://github.com/acme/repo/pull/8" |}.

(** A run whose [github-token] input is not supplied. *)
Definition envWithoutToken : Env :=
  {| getInput := fun name required =>
       if name =? "github-token"
       then inl (Error "Input required and not supplied: github-token")
       else inputs acmeUrl "Done" "" "" name required;
     getOctokit := fun _ => inr board;
     payload := event "acme" |}.

(** A field with two options of the same name. *)
Definition twiceDone : list FieldOption.t :=
  [ {| FieldOption.id := "opt1"; FieldOption.name := "Todo" |};
    {| FieldOption.id := "opt2"; FieldOption.name := "Done" |};
    {| FieldOption.id := "opt3"; FieldOption.name := "Done" |} ].

(** The same board whose iteration field has no iteration. *)
Definition boardWithoutIterations : Octokit :=
  client (inr (projectOfOrg "P1")) todoDone [].

End Sample.

(** ** The project URL pattern, read declaratively *)

Fixpoint allOf (cls : ascii -> bool) (s : string) : bool :=
  match s with
  | EmptyString => true
  | String c s' => cls c && allOf cls s'
  end.

Definition startsWith (cls : ascii -> bool) (s : string) : bool :=
  match s with
  | EmptyString => false
  | String c _ => cls c
  end.

(** The longest prefix of [s] in the class [cls], and what follows it. *)
Fixpoint span (cls : ascii -> bool) (s : string) : string * string :=
  match s with
  | EmptyString => (EmptyString, EmptyString)
  | String c s' =>
      if cls c then let (m, r) := span cls s' in (String c m, r)
      else (EmptyString, s)
  end.

(** The strings the pattern of lines 6-7 matches, with the text of each named
    group: an optional [https://], [github.com/], [orgs] or [users], a slash,
    a non-empty owner name without slash, [/projects/], and the longest
    non-empty run of decimal digits; anything may follow. *)
Definition urlShape (s : string) (g : UrlPattern.Groups) : Prop :=
  exists scheme rest,
    (scheme = "" \/ scheme = "https://")
    /\ (UrlPattern.ownerType g = "orgs" \/ UrlPattern.ownerType g = "users")
    /\ UrlPattern.ownerName g <> ""
    /\ allOf UrlPattern.notSlash (UrlPattern.ownerName g) = true
    /\ UrlPattern.projectNumber g <> ""
    /\ allOf isDigit (UrlPattern.projectNumber g) = true
    /\ startsWith isDigit rest = false
    /\ s = scheme ++ "github.com/" ++ UrlPattern.ownerType g ++ "/"
           ++ UrlPattern.ownerName g ++ "/projects/"
           ++ UrlPattern.projectNumber g ++ rest.

(** ** Reading more of a trace *)

(** The six requests of a complete run, by the place they are sent from. *)
Inductive Step : Type :=
| ProjectLookup      (* lines 137-149 *)
| ItemCreation       (* lines 164-178 or 185-200 *)
| FieldLookup        (* lines 209-225 *)
| ColumnUpdate       (* lines 232-253 *)
| IterationLookup    (* lines 257-274 *)
| IterationUpdate.   (* lines 284-305 *)

Definition stepOf (r : Request) : Step :=
  match r with
  | GetProject _ _ _ => ProjectLookup
  | AddIssueToProject _ _ | AddDraftIssueToProject _ _ => ItemCreation
  | GetOptionField _ _ => FieldLookup
  | AddIssueToColumn _ _ _ _ => ColumnUpdate
  | GetIteration _ => IterationLookup
  | AddIssueToIteration _ _ _ _ => IterationUpdate
  end.

Definition allSteps : list Step :=
  [ProjectLookup; ItemCreation; FieldLookup; ColumnUpdate; IterationLookup;
   IterationUpdate].

(** The [projectId] variable of a request (the lookup has none). *)
Definition projectIdOf (r : Request) : option (option string) :=
  match r with
  | GetProject _ _ _ => None
  | AddIssueToProject pid _ | AddDraftIssueToProject pid _
  | GetOptionField pid _ | AddIssueToColumn pid _ _ _ | GetIteration pid
  | AddIssueToIteration pid _ _ _ => Some pid
  end.

(** The [itemId] variable of the two field updates. *)
Definition itemIdOf (r : Request) : option string :=
  match r with
  | AddIssueToColumn _ itemId _ _ | AddIssueToIteration _ itemId _ _ =>
      Some itemId
  | _ => None
  end.

(** The item identifier an answered mutation returns. *)
Definition returnedItemId (e : Event) : option string :=
  match e with
  | Graphql _ (inr (ProjectAddItem r)) =>
      Some (Node.id (item (addProjectV2ItemById r)))
  | Graphql _ (inr (ProjectV2AddDraftIssue r)) =>
      Some (Node.id (projectItem (addProjectV2DraftIssue r)))
  | Graphql _ (inr (ProjectV2UpdateItemFieldValue r)) =>
      Some (Node.id (projectV2Item (updateProjectV2ItemFieldValue r)))
  | _ => None
  end.

(** The item identifiers returned by the answered mutations, in order. *)
Fixpoint returnedItemIds (tr : Trace) : list string :=
  match tr with
  | [] => []
  | e :: tr' =>
      match returnedItemId e with
      | Some i => i :: returnedItemIds tr'
      | None => returnedItemIds tr'
      end
  end.

(** What the run published with [core.setOutput], in order. *)
Fixpoint outputs (tr : Trace) : list (string * string) :=
  match tr with
  | [] => []
  | CoreSetOutput name value :: tr' => (name, value) :: outputs tr'
  | _ :: tr' => outputs tr'
  end.

(** The project id line 151 reads off the answer to the lookup. *)
Fixpoint lookedUpProjectId (tr : Trace) : option (option string) :=
  match tr with
  | [] => None
  | Graphql (GetProject q _ _) (inr (ProjectNodeID idResp)) :: _ =>
      Some (option_map (fun o => Node.id (projectV2 o)) (ownerEntry idResp q))
  | _ :: tr' => lookedUpProjectId tr'
  end.

(** The answers to the field lookup and to the iteration lookup. *)
Fixpoint fieldAnswer (tr : Trace) : option SingleSelectField.t :=
  match tr with
  | [] => None
  | Graphql (GetOptionField _ _) (inr (ProjectV2GetFieldAndOption r)) :: _ =>
      Some (SingleSelectFieldNode.field
              (ProjectV2GetFieldAndOptionResponse.node r))
  | _ :: tr' => fieldAnswer tr'
  end.

Fixpoint iterationAnswer (tr : Trace) : option IterationField.t :=
  match tr with
  | [] => None
  | Graphql (GetIteration _) (inr (ProjectV2GetIteration r)) :: _ =>
      Some (IterationFieldNode.field (ProjectV2GetIterationResponse.node r))
  | _ :: tr' => iterationAnswer tr'
  end.

(** The same environment with other [issue] and [pull_request] members in
    the payload. *)
Definition withContent (env : Env) (issue pr : option Payload.Content) : Env :=
  {| getInput := getInput env;
     getOctokit := getOctokit env;
     payload := {| Payload.issue := issue;
                   Payload.pull_request := pr;
                   Payload.repository := Payload.repository (payload env) |} |}.

(** * Properties *)

(** ** The order behind [>] on strings *)

Module StringOrder.

Lemma ascii_compare_refl (a : ascii) : Ascii.compare a a = Eq.
Proof. unfold Ascii.compare. apply N.compare_refl. Qed.

Lemma compare_refl (s : string) : String.compare s s = Eq.
Proof.
  induction s as [|a s IH]; simpl; [reflexivity|].
  now rewrite ascii_compare_refl.
Qed.

Lemma ascii_lt_trans (a b c : ascii) :
  Ascii.compare a b = Lt -> Ascii.compare b c = Lt -> Ascii.compare a c = Lt.
Proof.
  unfold Ascii.compare. rewrite !N.compare_lt_iff. apply N.lt_trans.
Qed.

Lemma compare_lt_trans (s t u : string) :
  String.compare s t = Lt -> String.compare t u = Lt -> String.compare s u = Lt.
Proof.
  revert t u.
  induction s as [|a s IH]; intros [|b t] [|c u]; simpl;
    try discriminate; try reflexivity.
  destruct (Ascii.compare a b) eqn:Hab; try discriminate;
    destruct (Ascii.compare b c) eqn:Hbc; try discriminate; intros Hst Htu.
  - apply Ascii.compare_eq_iff in Hab, Hbc. subst.
    rewrite ascii_compare_refl. now apply IH with t.
  - apply Ascii.compare_eq_iff in Hab. subst. now rewrite Hbc.
  - apply Ascii.compare_eq_iff in Hbc. subst. now rewrite Hab.
  - now rewrite (ascii_lt_trans _ _ _ Hab Hbc).
Qed.

Lemma gt_lt (s t : string) : gt s t = true <-> String.compare t s = Lt.
Proof.
  unfold gt. rewrite String.compare_antisym.
  destruct (String.compare t s); simpl; split; congruence.
Qed.

Lemma gt_irrefl (s : string) : gt s s = false.
Proof. unfold gt. now rewrite compare_refl. Qed.

Lemma gt_trans (s t u : string) :
  gt s t = true -> gt t u = true -> gt s u = true.
Proof.
  rewrite !gt_lt. intros Hts Hut. now apply compare_lt_trans with t.
Qed.

(** [s <= t <= u] gives [s <= u], where [x <= y] is "not [x > y]". *)
Lemma not_gt_trans (s t u : string) :
  gt s t = false -> gt t u = false -> gt s u = false.
Proof.
  unfold gt. intros Hst Htu.
  destruct (String.compare s t) eqn:Est; try discriminate;
    destruct (String.compare t u) eqn:Etu; try discriminate.
  - apply String.compare_eq_iff in Est. subst. now rewrite Etu.
  - apply String.compare_eq_iff in Est. subst. now rewrite Etu.
  - apply String.compare_eq_iff in Etu. subst. now rewrite Est.
  - now rewrite (compare_lt_trans _ _ _ Est Etu).
Qed.

(** [s < t] gives "not [s > t]". *)
Lemma gt_asym (s t : string) : gt t s = true -> gt s t = false.
Proof.
  rewrite gt_lt. unfold gt. intros H. now rewrite H.
Qed.

End StringOrder.

(** ** The inputs at examples *)

Example urlParse_with_scheme :
  UrlPattern.urlParse "https://github.com/orgs/acme/projects/12/views/3"
  = Some {| UrlPattern.ownerType := "orgs";
            UrlPattern.ownerName := "acme";
            UrlPattern.projectNumber := "12" |}.
Proof. reflexivity. Qed.

Example urlParse_without_scheme :
  UrlPattern.urlParse "github.com/users/octo-cat/projects/007"
  = Some {| UrlPattern.ownerType := "users";
            UrlPattern.ownerName := "octo-cat";
            UrlPattern.projectNumber := "007" |}
  /\ parseInt10 "007" = Some 7%N.
Proof. split; reflexivity. Qed.

Example parseInt_exact_up_to_limit :
  parseInt "9007199254740992" = Integer 9007199254740992
  /\ parseInt "9007199254740993" = Rounded 9007199254740993
  /\ parseInt "" = NaN.
Proof. repeat split; reflexivity. Qed.

Example urlParse_rejects :
  UrlPattern.urlParse "http://github.com/orgs/acme/projects/12" = None
  /\ UrlPattern.urlParse "https://github.com/orgs/acme/projects/" = None
  /\ UrlPattern.urlParse "https://github.com/teams/acme/projects/12" = None
  /\ UrlPattern.urlParse "https://github.com/orgs//projects/12" = None.
Proof. repeat split; reflexivity. Qed.

Example parseLabeled_normalises :
  @parseLabeled AsciiOps.ops " Bug, ,urgent ,," = ["bug"; "urgent"]
  /\ @parseLabeled AsciiOps.ops "" = [].
Proof. split; reflexivity. Qed.

(** ** Lists of labels *)

Lemma includes_In (xs : list string) (x : string) :
  includes xs x = true <-> In x xs.
Proof.
  unfold includes. rewrite existsb_exists. split.
  - intros [y [Hy Heq]]. apply String.eqb_eq in Heq. now subst.
  - intros H. exists x. split; [assumption | apply String.eqb_refl].
Qed.

Lemma every_included (labeled issueLabels : list string) :
  forallb (fun l => includes issueLabels l) labeled = true
  <-> forall l, In l labeled -> In l issueLabels.
Proof.
  rewrite forallb_forall. split; intros H l Hl.
  - apply includes_In. now apply H.
  - apply includes_In. now apply H.
Qed.

Lemma some_included (labeled issueLabels : list string) :
  existsb (fun l => includes labeled l) issueLabels = true
  <-> exists l, In l labeled /\ In l issueLabels.
Proof.
  rewrite existsb_exists. split; intros [l [H1 H2]]; exists l.
  - apply includes_In in H2. tauto.
  - split; [assumption | now apply includes_In].
Qed.

Lemma none_included (labeled issueLabels : list string) :
  existsb (fun l => includes labeled l) issueLabels = false
  <-> forall l, In l labeled -> ~ In l issueLabels.
Proof.
  split.
  - intros H l Hl Hi.
    assert (E : existsb (fun l => includes labeled l) issueLabels = true)
      by (apply some_included; now exists l).
    congruence.
  - intros H.
    destruct (existsb (fun l => includes labeled l) issueLabels) eqn:E;
      [|reflexivity].
    apply some_included in E. destruct E as [l [Hl Hi]].
    exfalso. now apply (H l).
Qed.

Lemma nonempty_length {A : Type} (xs : list A) :
  (0 <? List.length xs)%nat = false <-> xs = [].
Proof.
  destruct xs; simpl; split; intros H; try reflexivity; discriminate.
Qed.

(** The filter, operator by operator (lines 100-115). *)

Lemma labelFilter_and (labeled issueLabels : list string) (n : option N) :
  labelFilter "and" labeled issueLabels n = None
  <-> forall l, In l labeled -> In l issueLabels.
Proof.
  unfold labelFilter. simpl (_ =? _).
  rewrite <- every_included.
  destruct (forallb _ labeled); simpl; split; congruence.
Qed.

Lemma labelFilter_not (labeled issueLabels : list string) (n : option N) :
  labelFilter "not" labeled issueLabels n = None
  <-> labeled = [] \/ forall l, In l labeled -> ~ In l issueLabels.
Proof.
  unfold labelFilter. simpl (_ =? _).
  rewrite <- none_included, <- (nonempty_length labeled).
  destruct (0 <? List.length labeled)%nat, (existsb _ issueLabels); simpl;
    split; intros H; try tauto; try discriminate.
  destruct H; discriminate.
Qed.

Lemma labelFilter_or (op : string) (labeled issueLabels : list string)
      (n : option N) :
  op <> "and" -> op <> "not" ->
  (labelFilter op labeled issueLabels n = None
   <-> labeled = [] \/ exists l, In l labeled /\ In l issueLabels).
Proof.
  intros Hand Hnot. unfold labelFilter.
  apply String.eqb_neq in Hand, Hnot. rewrite Hand, Hnot.
  rewrite <- some_included, <- (nonempty_length labeled).
  destruct (0 <? List.length labeled)%nat, (existsb _ issueLabels); simpl;
    split; intros H; try tauto; try discriminate.
  destruct H; discriminate.
Qed.

(** ** Iteration selection (lines 277-279) *)

(** The invariant of the reduction: the accumulator [acc] sits in the part
    already read, nothing before it is later than it, and everything read
    after it is strictly earlier. *)
Lemma fold_laterIteration (rest pre mid : list IterationItem.t)
      (acc : IterationItem.t) :
  (forall x, In x pre ->
     gt (IterationItem.startDate x) (IterationItem.startDate acc) = false) ->
  (forall x, In x mid ->
     gt (IterationItem.startDate acc) (IterationItem.startDate x) = true) ->
  exists pre' post,
    (pre ++ acc :: mid ++ rest
     = pre' ++ fold_left laterIteration rest acc :: post)%list
    /\ (forall x, In x pre' ->
          gt (IterationItem.startDate x)
             (IterationItem.startDate (fold_left laterIteration rest acc))
          = false)
    /\ (forall x, In x post ->
          gt (IterationItem.startDate (fold_left laterIteration rest acc))
             (IterationItem.startDate x)
          = true).
Proof.
  revert pre mid acc.
  induction rest as [|c rest IH]; intros pre mid acc Hpre Hmid; simpl.
  - exists pre, mid. rewrite app_nil_r. auto.
  - destruct (gt (IterationItem.startDate acc) (IterationItem.startDate c))
      eqn:Hc.
    + replace (laterIteration acc c) with acc
        by (unfold laterIteration; now rewrite Hc).
      destruct (IH pre (mid ++ [c])%list acc Hpre)
        as (pre' & post & E & H1 & H2).
      * intros x Hx. apply in_app_or in Hx. destruct Hx as [Hx|[<-|[]]]; auto.
      * exists pre', post. split; [|auto].
        rewrite <- E, <- app_assoc. reflexivity.
    + replace (laterIteration acc c) with c
        by (unfold laterIteration; now rewrite Hc).
      destruct (IH (pre ++ acc :: mid)%list [] c)
        as (pre' & post & E & H1 & H2).
      * intros x Hx. apply in_app_or in Hx. destruct Hx as [Hx|[<-|Hx]].
        -- apply StringOrder.not_gt_trans with (IterationItem.startDate acc);
             auto.
        -- assumption.
        -- apply StringOrder.not_gt_trans with (IterationItem.startDate acc);
             auto.
           apply StringOrder.gt_asym. auto.
      * intros x [].
      * exists pre', post. split; [|auto].
        rewrite <- E, <- app_assoc. reflexivity.
Qed.

Lemma selectIteration_last_latest (its : list IterationItem.t) :
  its <> [] ->
  exists chosen before after,
    selectIteration its = inr chosen
    /\ its = (before ++ chosen :: after)%list
    /\ (forall x, In x before ->
          gt (IterationItem.startDate x) (IterationItem.startDate chosen)
          = false)
    /\ (forall x, In x after ->
          gt (IterationItem.startDate chosen) (IterationItem.startDate x)
          = true).
Proof.
  destruct its as [|x rest]; [congruence|]. intros _.
  destruct (fold_laterIteration rest [] [] x) as (pre & post & E & H1 & H2);
    try (intros ? []).
  exists (fold_left laterIteration rest x), pre, post.
  repeat split; auto.
Qed.

(** C5 (as amended). For every non-empty list of iterations the selection
    succeeds and returns an element of the list with a maximal [startDate]
    under the lexicographic order on strings: no element has a greater
    [startDate].  When several elements share that maximal [startDate], the
    one met last is selected: every element after the selected one has a
    strictly smaller [startDate].  For the list
    [{id:"a",startDate:"2024-01-01"}, {id:"b",startDate:"2024-02-01"}] the
    selection yields ["b"]. *)
Theorem selectIteration_latest_last_on_ties :
  (forall its : list IterationItem.t,
      its <> [] ->
      exists chosen before after,
        selectIteration its = inr chosen
        /\ its = (before ++ chosen :: after)%list
        /\ (forall x, In x its ->
              gt (IterationItem.startDate x) (IterationItem.startDate chosen)
              = false)
        /\ (forall x, In x after ->
              gt (IterationItem.startDate chosen) (IterationItem.startDate x)
              = true))
  /\ mapResult IterationItem.id (selectIteration Sample.twoIterations)
     = inr "b".
Proof.
  split; [|reflexivity].
  intros its Hne.
  destruct (selectIteration_last_latest its Hne)
    as (chosen & before & after & Hsel & Hits & Hbefore & Hafter).
  exists chosen, before, after. repeat split; auto.
  intros x Hx. rewrite Hits in Hx. apply in_app_or in Hx.
  destruct Hx as [Hx|[<-|Hx]].
  - auto.
  - apply StringOrder.gt_irrefl.
  - apply StringOrder.gt_asym. auto.
Qed.

(** The theorem at a list with a tie. *)
Lemma selectIteration_latest_last_on_ties_witness :
  exists chosen before after,
    selectIteration Sample.sameDay = inr chosen
    /\ Sample.sameDay = (before ++ chosen :: after)%list
    /\ (forall x, In x Sample.sameDay ->
          gt (IterationItem.startDate x) (IterationItem.startDate chosen)
          = false)
    /\ (forall x, In x after ->
          gt (IterationItem.startDate chosen) (IterationItem.startDate x)
          = true).
Proof.
  apply (proj1 selectIteration_latest_last_on_ties Sample.sameDay).
  discriminate.
Defined.

(** C5 (as stated) fails on a tie: of two iterations with the same
    [startDate], the reduction keeps the second, not the first. *)
Lemma selectIteration_tie_counterexample :
  mapResult IterationItem.id (selectIteration Sample.sameDay) = inr "b"
  /\ mapResult IterationItem.id (selectIteration Sample.sameDay) <> inr "a".
Proof.
  split; [reflexivity | discriminate].
Qed.

(** ** [mustGetOwnerTypeQuery] *)

(** C8. [mustGetOwnerTypeQuery] returns ["organization"] for ["orgs"],
    ["user"] for ["users"], and throws for every other argument, [undefined]
    included. *)
Theorem mustGetOwnerTypeQuery_total_mapping :
  mapResult ownerTypeQueryName (mustGetOwnerTypeQuery (Some "orgs"))
  = inr "organization"
  /\ mapResult ownerTypeQueryName (mustGetOwnerTypeQuery (Some "users"))
     = inr "user"
  /\ (forall ownerType : option string,
         ownerType <> Some "orgs" -> ownerType <> Some "users" ->
         mustGetOwnerTypeQuery ownerType
         = inl (Error ("Unsupported ownerType: " ++ show ownerType
                       ++ ". Must be one of 'orgs' or 'users'"))).
Proof.
  split; [reflexivity|]. split; [reflexivity|].
  intros ownerType Horgs Husers. unfold mustGetOwnerTypeQuery.
  destruct ownerType as [s|]; [|reflexivity].
  unfold strictEq.
  destruct (String.eqb_spec s "orgs") as [->|_]; [congruence|].
  destruct (String.eqb_spec s "users") as [->|_]; [congruence|].
  reflexivity.
Qed.

Lemma mustGetOwnerTypeQuery_total_mapping_witness :
  mustGetOwnerTypeQuery None
  = inl (Error "Unsupported ownerType: undefined. Must be one of 'orgs' or 'users'")
  /\ mustGetOwnerTypeQuery (Some "Orgs")
     = inl (Error "Unsupported ownerType: Orgs. Must be one of 'orgs' or 'users'").
Proof.
  split.
  - apply (proj2 (proj2 mustGetOwnerTypeQuery_total_mapping) None);
      discriminate.
  - apply (proj2 (proj2 mustGetOwnerTypeQuery_total_mapping) (Some "Orgs"));
      discriminate.
Defined.

(** ** Runs *)

Section Runs.

Context {ops : StringOps}.

(** Lines 78-115 with the inputs in hand: the filter either ends the run
    after one informational line, or hands over to line 117. *)
Lemma run_filter (env : Env) (i : Inputs) (octokit : Octokit) :
  provides env i octokit ->
  run env =
  match labelFilter (parseLabelOperator (labelOperatorInput i))
                    (parseLabeled (labeledInput i))
                    (contentLabels (triggeringContent (payload env)))
                    (option_map Payload.number
                                (triggeringContent (payload env))) with
  | Some message => (inr tt, [ownerLine env; CoreInfo message])
  | None =>
      addToProjectAfterFilter octokit (projectUrl i)
                              (fieldName i) (fieldOptionName i)
                              (triggeringContent (payload env))
                              (repositoryOwner (payload env))
                              [ownerLine env]
  end.
Proof.
  intros H. unfold run, addToProject, bind, lift, debug, info, emit.
  use_inputs H. cbn beta iota delta [fst snd app].
  destruct (labelFilter _ _ _ _); reflexivity.
Qed.

Lemma afterFilter_passedFilter (octokit : Octokit)
      (url fname foption : string) (issue : option Payload.Content)
      (owner : option string) (e0 : Event) :
  passedFilter
    (snd (addToProjectAfterFilter octokit url fname foption issue owner [e0])).
Proof.
  exists url. unfold_run. split_run. all: trace_member.
Qed.

Lemma skipped_not_passedFilter (env : Env) (message : string) :
  ~ passedFilter [ownerLine env; CoreInfo message].
Proof.
  intros [url H]. unfold ownerLine in H. simpl in H.
  destruct H as [H|[H|[]]]; discriminate.
Qed.

(** The run passes the filter exactly when the filter returns [None]. *)
Lemma passedFilter_iff (env : Env) (i : Inputs) (octokit : Octokit) :
  provides env i octokit ->
  (passedFilter (snd (run env))
   <-> labelFilter (parseLabelOperator (labelOperatorInput i))
                   (parseLabeled (labeledInput i))
                   (contentLabels (triggeringContent (payload env)))
                   (option_map Payload.number
                               (triggeringContent (payload env))) = None).
Proof.
  intros H. rewrite (run_filter env i octokit H).
  destruct (labelFilter _ _ _ _) as [message|].
  - split; [|discriminate]. intros Hp.
    exfalso. now apply (skipped_not_passedFilter env message).
  - split; [reflexivity|]. intros _. apply afterFilter_passedFilter.
Qed.

(** A run the filter stops returns normally after one informational line. *)
Lemma skipped_run (env : Env) (i : Inputs) (octokit : Octokit) :
  provides env i octokit ->
  labelFilter (parseLabelOperator (labelOperatorInput i))
              (parseLabeled (labeledInput i))
              (contentLabels (triggeringContent (payload env)))
              (option_map Payload.number (triggeringContent (payload env)))
  <> None ->
  exists message, run env = (inr tt, [ownerLine env; CoreInfo message]).
Proof.
  intros H Hskip. rewrite (run_filter env i octokit H).
  destruct (labelFilter _ _ _ _) as [message|]; [|congruence].
  now exists message.
Qed.

End Runs.

Section RunShape.

Context {ops : StringOps}.

(** Once the project lookup is answered, the run sends exactly one
    item-creation mutation, chosen by comparing the repository owner with the
    owner name of the project URL. *)
Lemma item_creation_after_lookup (env : Env) (res : Result unit) (tr : Trace)
      (q : OwnerTypeQuery) (owner : option string) (n : JsNumber)
      (idResp : ProjectNodeIDResponse) :
  run env = (res, tr) ->
  In (Graphql (GetProject q owner n) (inr (ProjectNodeID idResp))) tr ->
  (exists url g,
      getInput env "project-url" true = inr url
      /\ UrlPattern.urlParse url = Some g
      /\ owner = Some (UrlPattern.ownerName g))
  /\ filter isItemCreation (requests tr) =
     [ if strictEq (repositoryOwner (payload env)) owner
       then AddIssueToProject
              (option_map (fun o => Node.id (projectV2 o)) (ownerEntry idResp q))
              (optionalChain (triggeringContent (payload env)) Payload.node_id)
       else AddDraftIssueToProject
              (option_map (fun o => Node.id (projectV2 o)) (ownerEntry idResp q))
              (optionalChain (triggeringContent (payload env)) Payload.html_url) ].
Proof.
  intros Hrun Hin.
  set (goal := _ /\ _). revert Hrun. unfold_run. split_run.
  all: intros Hrun; injection Hrun as <- <-.
  all: find_event Hin.
  all: injection Hin as <- <- <- <-.
  all: subst goal; split; [eauto|].
  all: match goal with
       | E : strictEq _ _ = _ |- _ => rewrite E
       end; reflexivity.
Qed.

(** A rejected project lookup ends the run with the rejection, before any
    item-creation mutation. *)
Lemma lookup_rejected (env : Env) (res : Result unit) (tr : Trace)
      (q : OwnerTypeQuery) (owner : option string) (n : JsNumber) (e : Exn) :
  run env = (res, tr) ->
  In (Graphql (GetProject q owner n) (inl e)) tr ->
  res = inl e /\ filter isItemCreation (requests tr) = [].
Proof.
  intros Hrun Hin.
  set (goal := _ /\ _). revert Hrun. unfold_run. split_run.
  all: intros Hrun; injection Hrun as <- <-.
  all: find_event Hin.
  all: injection Hin as <- <- <- <-.
  all: subst goal; split; reflexivity.
Qed.

(** Without an answered project lookup there is no item creation. *)
Lemma no_lookup_no_item_creation (env : Env) (res : Result unit)
      (tr : Trace) :
  run env = (res, tr) ->
  (forall q owner n idResp,
      ~ In (Graphql (GetProject q owner n) (inr (ProjectNodeID idResp))) tr) ->
  filter isItemCreation (requests tr) = [].
Proof.
  unfold_run. split_run.
  all: intros Hrun Hno; injection Hrun as <- <-.
  all: try reflexivity.
  all: exfalso; eapply Hno; trace_member.
Qed.

End RunShape.

(** ** The claims about runs *)

Section Claims.

Context {ops : StringOps}.

(** C1 (as amended). For every run that passes the label filter and gets an
    answer to the project lookup (so the project URL matched the pattern and
    its owner kind was accepted), exactly one item-creation mutation is sent:
    when the repository owner's login is strictly equal to the owner name
    parsed from the project URL, the attach mutation with
    [(projectId, contentId)]; otherwise the draft mutation with [projectId]
    and the content's URL as title; never both, never neither.  A run whose
    project lookup is not answered sends neither: in particular a run whose
    project URL does not match the pattern, and a run whose lookup is
    rejected. *)
Theorem item_creation_exactly_one (env : Env) (res : Result unit)
        (tr : Trace) :
  run env = (res, tr) ->
  (forall q owner n idResp,
      In (Graphql (GetProject q owner n) (inr (ProjectNodeID idResp))) tr ->
      let projectId :=
        option_map (fun o => Node.id (projectV2 o)) (ownerEntry idResp q) in
      let issue := triggeringContent (payload env) in
      passedFilter tr
      /\ (exists url g,
             getInput env "project-url" true = inr url
             /\ UrlPattern.urlParse url = Some g
             /\ owner = Some (UrlPattern.ownerName g))
      /\ filter isItemCreation (requests tr) =
         [ if strictEq (repositoryOwner (payload env)) owner
           then AddIssueToProject projectId
                                  (optionalChain issue Payload.node_id)
           else AddDraftIssueToProject projectId
                                       (optionalChain issue Payload.html_url) ])
  /\ ((forall q owner n idResp,
          ~ In (Graphql (GetProject q owner n) (inr (ProjectNodeID idResp)))
               tr) ->
      filter isItemCreation (requests tr) = [])
  /\ (forall url,
         getInput env "project-url" true = inr url ->
         UrlPattern.urlParse url = None ->
         filter isItemCreation (requests tr) = [])
  /\ (forall q owner n e,
         In (Graphql (GetProject q owner n) (inl e)) tr ->
         res = inl e /\ filter isItemCreation (requests tr) = []).
Proof.
  intros Hrun.
  assert (Hnone : (forall q owner n idResp,
                      ~ In (Graphql (GetProject q owner n)
                                    (inr (ProjectNodeID idResp))) tr) ->
                  filter isItemCreation (requests tr) = [])
    by (now apply (no_lookup_no_item_creation env res tr)).
  split; [|split; [exact Hnone|split]].
  - intros q owner n idResp Hin projectId issue.
    destruct (item_creation_after_lookup env res tr q owner n idResp Hrun Hin)
      as [Hurl Hone].
    split; [|split; assumption].
    destruct Hurl as (url & g & Hget & Hparse & ->).
    exists url.
    revert Hrun. clear Hone Hnone. unfold_run. rewrite Hget. split_run.
    all: intros Hrun; injection Hrun as <- <-.
    all: find_event Hin.
    all: trace_member.
  - intros url Hget Hparse. apply Hnone.
    intros q owner n idResp Hin.
    destruct (item_creation_after_lookup env res tr q owner n idResp Hrun Hin)
      as [(url' & g & Hget' & Hparse' & _) _].
    congruence.
  - intros q owner n e Hin.
    now apply (lookup_rejected env res tr q owner n e).
Qed.

(** C2. With the operator [not], the filter lets a run pass exactly when
    [labeled] is empty or no configured label is among the content's labels,
    for all lists of labels; a run that reaches the filter with that operator
    goes past it exactly in that case, and otherwise logs one informational
    line and returns normally. *)
Theorem not_operator_filter (env : Env) (i : Inputs) (octokit : Octokit) :
  provides env i octokit ->
  parseLabelOperator (labelOperatorInput i) = "not" ->
  let labeled := parseLabeled (labeledInput i) in
  let issueLabels := contentLabels (triggeringContent (payload env)) in
  let proceed :=
    labeled = [] \/ (forall l, In l labeled -> ~ In l issueLabels) in
  (forall configured present number,
      labelFilter "not" configured present number = None
      <-> configured = []
          \/ (forall l, In l configured -> ~ In l present))
  /\ (passedFilter (snd (run env)) <-> proceed)
  /\ (~ proceed ->
      exists message, run env = (inr tt, [ownerLine env; CoreInfo message])).
Proof.
  intros H Hop labeled issueLabels proceed.
  pose proof (passedFilter_iff env i octokit H) as Hiff.
  pose proof (skipped_run env i octokit H) as Hskip.
  rewrite Hop in Hiff, Hskip.
  rewrite labelFilter_not in Hiff, Hskip.
  split; [intros; apply labelFilter_not|].
  split; [exact Hiff | exact Hskip].
Qed.

(** C3. With the operator [and], the filter lets a run pass exactly when
    every configured label is among the content's labels, for all lists of
    labels (so always when [labeled] is empty); a run that reaches the filter
    with that operator goes past it exactly in that case, and otherwise logs
    one informational line and returns normally. *)
Theorem and_operator_filter (env : Env) (i : Inputs) (octokit : Octokit) :
  provides env i octokit ->
  parseLabelOperator (labelOperatorInput i) = "and" ->
  let labeled := parseLabeled (labeledInput i) in
  let issueLabels := contentLabels (triggeringContent (payload env)) in
  let proceed := forall l, In l labeled -> In l issueLabels in
  (forall configured present number,
      labelFilter "and" configured present number = None
      <-> (forall l, In l configured -> In l present))
  /\ (passedFilter (snd (run env)) <-> proceed)
  /\ (labeled = [] -> passedFilter (snd (run env)))
  /\ (~ proceed ->
      exists message, run env = (inr tt, [ownerLine env; CoreInfo message])).
Proof.
  intros H Hop labeled issueLabels proceed.
  split; [intros; apply labelFilter_and|].
  pose proof (passedFilter_iff env i octokit H) as Hiff.
  pose proof (skipped_run env i octokit H) as Hskip.
  rewrite Hop in Hiff, Hskip.
  rewrite labelFilter_and in Hiff, Hskip.
  split; [exact Hiff|]. split; [|exact Hskip].
  intros Hnil. apply Hiff. intros l Hl. fold labeled in Hl.
  rewrite Hnil in Hl. destruct Hl.
Qed.

(** C4. With any operator other than [and] and [not], the filter lets a run
    pass exactly when [labeled] is empty or at least one configured label is
    among the content's labels, for all lists of labels; a run that reaches
    the filter with such an operator goes past it exactly in that case. *)
Theorem default_operator_filter (env : Env) (i : Inputs) (octokit : Octokit) :
  provides env i octokit ->
  parseLabelOperator (labelOperatorInput i) <> "and" ->
  parseLabelOperator (labelOperatorInput i) <> "not" ->
  let labeled := parseLabeled (labeledInput i) in
  let issueLabels := contentLabels (triggeringContent (payload env)) in
  (forall configured present number,
      labelFilter (parseLabelOperator (labelOperatorInput i))
                  configured present number = None
      <-> configured = []
          \/ (exists l, In l configured /\ In l present))
  /\ (passedFilter (snd (run env))
      <-> labeled = [] \/ (exists l, In l labeled /\ In l issueLabels)).
Proof.
  intros H Hand Hnot labeled issueLabels.
  split; [intros; now apply labelFilter_or|].
  rewrite (passedFilter_iff env i octokit H).
  now apply labelFilter_or.
Qed.

(** C6. For every run that gets the field and its options, when no option
    has exactly the configured name, the update-single-select-value mutation
    is still sent, with an undefined option identifier. *)
Theorem unmatched_option_still_sent (env : Env) (res : Result unit)
        (tr : Trace) (configured : string) (pid : option string)
        (fname : string) (r : ProjectV2GetFieldAndOptionResponse.t) :
  getInput env "field-option" true = inr configured ->
  run env = (res, tr) ->
  In (Graphql (GetOptionField pid fname) (inr (ProjectV2GetFieldAndOption r)))
     tr ->
  let field :=
    SingleSelectFieldNode.field (ProjectV2GetFieldAndOptionResponse.node r) in
  (forall o, In o (SingleSelectField.options field) ->
             FieldOption.name o <> configured) ->
  exists itemId,
    filter isColumnUpdate (requests tr)
    = [AddIssueToColumn pid itemId (SingleSelectField.id field) None].
Proof.
  intros Hget Hrun Hin field Hnone.
  assert (Hfind : findFieldOption (SingleSelectField.options field) configured
                  = None).
  { unfold findFieldOption, find.
    destruct (List.find _ _) as [o|] eqn:E; [|reflexivity].
    apply find_some in E. destruct E as [Ho Hname].
    apply String.eqb_eq in Hname. exfalso. now apply (Hnone o). }
  subst field.
  set (goal := exists _, _). revert Hrun. unfold_run. rewrite Hget. split_run.
  all: intros Hrun; injection Hrun as <- <-.
  all: find_event Hin.
  all: injection Hin as <- <- <-.
  all: subst goal; rewrite Hfind; eexists; reflexivity.
Qed.

(** C7. For every run that gets the iteration field with an empty list of
    iterations, the reduction throws, the run fails with that error, and the
    update-iteration-value mutation is never sent. *)
Theorem empty_iterations_fail (env : Env) (res : Result unit) (tr : Trace)
        (pid : option string) (r : ProjectV2GetIterationResponse.t) :
  run env = (res, tr) ->
  In (Graphql (GetIteration pid) (inr (ProjectV2GetIteration r))) tr ->
  iterations (IterationField.configuration
                (IterationFieldNode.field
                   (ProjectV2GetIterationResponse.node r))) = [] ->
  res = inl (TypeError "Reduce of empty array with no initial value")
  /\ filter isIterationUpdate (requests tr) = [].
Proof.
  intros Hrun Hin Hempty.
  set (goal := _ /\ _). revert Hrun. unfold_run. split_run.
  all: intros Hrun; injection Hrun as <- <-.
  all: find_event Hin.
  all: injection Hin as <- <-.
  all: match goal with
       | E : selectIteration _ = _ |- _ =>
           rewrite Hempty in E; cbn in E; inversion E; subst
       end.
  all: subst goal; split; reflexivity.
Qed.

(** C9 (as amended). When the answer to the project lookup has no entry
    under the owner-kind key, the run does not fail there: the project id is
    undefined and exactly one item-creation mutation is sent with it.  The run
    fails before any item-creation mutation when the lookup request itself is
    rejected, and then with the rejection. *)
Theorem missing_project_entry_goes_on (env : Env) (res : Result unit)
        (tr : Trace) (q : OwnerTypeQuery) (owner : option string)
        (n : JsNumber) :
  run env = (res, tr) ->
  (forall idResp,
      In (Graphql (GetProject q owner n) (inr (ProjectNodeID idResp))) tr ->
      ownerEntry idResp q = None ->
      exists second,
        filter isItemCreation (requests tr) = [AddIssueToProject None second]
        \/ filter isItemCreation (requests tr)
           = [AddDraftIssueToProject None second])
  /\ (forall e,
         In (Graphql (GetProject q owner n) (inl e)) tr ->
         res = inl e /\ filter isItemCreation (requests tr) = []).
Proof.
  intros Hrun. split.
  - intros idResp Hin Hentry.
    destruct (item_creation_after_lookup env res tr q owner n idResp Hrun Hin)
      as [_ Hone].
    rewrite Hone, Hentry. cbn [option_map].
    destruct (strictEq _ _); eexists; [left|right]; reflexivity.
  - intros e Hin. now apply (lookup_rejected env res tr q owner n e).
Qed.

(** C10. When the label filter decides to skip, the run logs one line,
    sends no request and returns normally, whatever the project URL is: the
    URL is only matched against the pattern (and the invalid-URL error only
    thrown) by a run the filter lets pass. *)
Theorem skip_precedes_url_validation (env : Env) (i : Inputs) (octokit : Octokit) :
  provides env i octokit ->
  let decision :=
    labelFilter (parseLabelOperator (labelOperatorInput i))
                (parseLabeled (labeledInput i))
                (contentLabels (triggeringContent (payload env)))
                (option_map Payload.number (triggeringContent (payload env))) in
  (forall message,
      decision = Some message ->
      run env = (inr tt, [ownerLine env; CoreInfo message])
      /\ requests (snd (run env)) = [])
  /\ (decision = None ->
      UrlPattern.urlParse (projectUrl i) = None ->
      run env = (inl (invalidProjectUrl (projectUrl i)),
                 [ownerLine env; CoreDebug ("Project URL: " ++ projectUrl i)])).
Proof.
  intros H decision. subst decision. rewrite (run_filter env i octokit H).
  split.
  - intros message ->. split; reflexivity.
  - intros -> Hurl. unfold_run. rewrite Hurl. reflexivity.
Qed.

End Claims.

(** ** The claims at sample runs *)

Lemma sample_provides (url fieldOption labeled labelOperator login : string)
      (octokit : Octokit) :
  provides (Sample.env url fieldOption labeled labelOperator login octokit)
           (Sample.inputsOf url fieldOption labeled labelOperator) octokit.
Proof. repeat split. Qed.

(** C1 at a run whose repository and project have the same owner: the
    content is attached, and no draft is created. *)
Lemma item_creation_exactly_one_witness :
  let env := Sample.env Sample.acmeUrl "Done" "" "" "acme" Sample.board in
  let tr := snd (@run AsciiOps.ops env) in
  passedFilter tr
  /\ (exists url g,
         getInput env "project-url" true = inr url
         /\ UrlPattern.urlParse url = Some g
         /\ Some "acme" = Some (UrlPattern.ownerName g))
  /\ filter isItemCreation (requests tr)
     = [AddIssueToProject (Some "P1") (Some "C_7")].
Proof.
  intros env tr.
  apply (proj1 (@item_creation_exactly_one AsciiOps.ops env
                  (fst (@run AsciiOps.ops env)) tr eq_refl)
               Organization (Some "acme") (Integer 12)
               (Sample.projectOfOrg "P1")).
  vm_compute. auto 10.
Defined.

(** C1 (as stated) fails at a run that passes the filter with a project URL
    that does not match the pattern: the run throws and neither mutation is
    sent. *)
Lemma item_creation_counterexample :
  let env := Sample.env "github.com/acme/projects/12" "Done" "" "" "acme"
                        Sample.board in
  let out := @run AsciiOps.ops env in
  passedFilter (snd out)
  /\ fst out = inl (invalidProjectUrl "github.com/acme/projects/12")
  /\ filter isItemCreation (requests (snd out)) = [].
Proof.
  intros env out. split; [|split; reflexivity].
  exists "github.com/acme/projects/12". vm_compute. auto.
Qed.

(** C2 at a run configured with [labeled = bug], operator [NOT], on an
    issue labelled [Bug]. *)
Lemma not_operator_filter_witness :
  let env := Sample.env Sample.acmeUrl "Done" "bug" "NOT " "acme" Sample.board in
  let labeled := @parseLabeled AsciiOps.ops "bug" in
  let issueLabels :=
    @contentLabels AsciiOps.ops (triggeringContent (payload env)) in
  let proceed :=
    labeled = [] \/ (forall l, In l labeled -> ~ In l issueLabels) in
  (passedFilter (snd (@run AsciiOps.ops env)) <-> proceed)
  /\ (~ proceed ->
      exists message,
        @run AsciiOps.ops env = (inr tt, [ownerLine env; CoreInfo message])).
Proof.
  intros env.
  eapply proj2.
  apply (@not_operator_filter AsciiOps.ops env
           (Sample.inputsOf Sample.acmeUrl "Done" "bug" "NOT ") Sample.board).
  - apply sample_provides.
  - reflexivity.
Defined.

(** C3 at a run configured with [labeled = bug, urgent], operator [and], on
    an issue labelled [Bug] only. *)
Lemma and_operator_filter_witness :
  let env :=
    Sample.env Sample.acmeUrl "Done" "bug, urgent" "and" "acme" Sample.board in
  let labeled := @parseLabeled AsciiOps.ops "bug, urgent" in
  let issueLabels :=
    @contentLabels AsciiOps.ops (triggeringContent (payload env)) in
  let proceed := forall l, In l labeled -> In l issueLabels in
  (passedFilter (snd (@run AsciiOps.ops env)) <-> proceed)
  /\ (labeled = [] -> passedFilter (snd (@run AsciiOps.ops env)))
  /\ (~ proceed ->
      exists message,
        @run AsciiOps.ops env = (inr tt, [ownerLine env; CoreInfo message])).
Proof.
  intros env.
  eapply proj2.
  apply (@and_operator_filter AsciiOps.ops env
           (Sample.inputsOf Sample.acmeUrl "Done" "bug, urgent" "and")
           Sample.board).
  - apply sample_provides.
  - reflexivity.
Defined.

(** C4 at a run configured with [labeled = bug, urgent] and no operator. *)
Lemma default_operator_filter_witness :
  let env :=
    Sample.env Sample.acmeUrl "Done" "bug, urgent" "" "acme" Sample.board in
  let labeled := @parseLabeled AsciiOps.ops "bug, urgent" in
  let issueLabels :=
    @contentLabels AsciiOps.ops (triggeringContent (payload env)) in
  passedFilter (snd (@run AsciiOps.ops env))
  <-> labeled = [] \/ (exists l, In l labeled /\ In l issueLabels).
Proof.
  intros env.
  eapply proj2.
  apply (@default_operator_filter AsciiOps.ops env
           (Sample.inputsOf Sample.acmeUrl "Done" "bug, urgent" "")
           Sample.board).
  - apply sample_provides.
  - discriminate.
  - discriminate.
Defined.

(** C6 at a run configured with the option [Blocked], which the field does
    not have. *)
Lemma unmatched_option_still_sent_witness :
  let env := Sample.env Sample.acmeUrl "Blocked" "" "" "acme" Sample.board in
  exists itemId,
    filter isColumnUpdate (requests (snd (@run AsciiOps.ops env)))
    = [AddIssueToColumn (Some "P1") itemId "F_status" None].
Proof.
  intros env.
  apply (@unmatched_option_still_sent AsciiOps.ops env
           (fst (@run AsciiOps.ops env)) (snd (@run AsciiOps.ops env))
           "Blocked" (Some "P1") "Status"
           (Sample.statusField Sample.todoDone)).
  - reflexivity.
  - reflexivity.
  - vm_compute. auto 20.
  - intros o Ho. vm_compute in Ho.
    destruct Ho as [<-|[<-|[]]]; discriminate.
Defined.

(** C7 at a run on a board whose iteration field has no iteration. *)
Lemma empty_iterations_fail_witness :
  let env :=
    Sample.env Sample.acmeUrl "Done" "" "" "acme"
               Sample.boardWithoutIterations in
  fst (@run AsciiOps.ops env)
  = inl (TypeError "Reduce of empty array with no initial value")
  /\ filter isIterationUpdate (requests (snd (@run AsciiOps.ops env))) = [].
Proof.
  intros env.
  apply (@empty_iterations_fail AsciiOps.ops env
           (fst (@run AsciiOps.ops env)) (snd (@run AsciiOps.ops env))
           (Some "P1") (Sample.iterationField [])).
  - reflexivity.
  - vm_compute. auto 30.
  - reflexivity.
Defined.

(** C9 (as stated) fails at a run whose lookup answers without an entry
    for the owner: the run does not fail, and the attach mutation is sent with
    an undefined project id. *)
Lemma missing_project_entry_counterexample :
  let env :=
    Sample.env Sample.acmeUrl "Done" "" "" "acme" Sample.boardWithoutEntry in
  let out := @run AsciiOps.ops env in
  In (Graphql (GetProject Organization (Some "acme") (Integer 12))
              (inr (ProjectNodeID Sample.noProject)))
     (snd out)
  /\ ownerEntry Sample.noProject Organization = None
  /\ ~ failed (fst out)
  /\ filter isItemCreation (requests (snd out))
     = [AddIssueToProject None (Some "C_7")].
Proof.
  intros env out. split; [vm_compute; auto 10|].
  split; [reflexivity|]. split; [|reflexivity].
  intros [e He]. vm_compute in He. discriminate.
Qed.

(** C9 (as amended) at the same run, and at a run whose lookup is
    rejected. *)
Lemma missing_project_entry_goes_on_witness :
  let env :=
    Sample.env Sample.acmeUrl "Done" "" "" "acme" Sample.boardWithoutEntry in
  let tr := snd (@run AsciiOps.ops env) in
  (forall idResp,
      In (Graphql (GetProject Organization (Some "acme") (Integer 12))
                  (inr (ProjectNodeID idResp))) tr ->
      ownerEntry idResp Organization = None ->
      exists second,
        filter isItemCreation (requests tr) = [AddIssueToProject None second]
        \/ filter isItemCreation (requests tr)
           = [AddDraftIssueToProject None second])
  /\ (forall e,
         In (Graphql (GetProject Organization (Some "acme") (Integer 12))
                     (inl e)) tr ->
         fst (@run AsciiOps.ops env) = inl e
         /\ filter isItemCreation (requests tr) = []).
Proof.
  intros env tr.
  apply (@missing_project_entry_goes_on AsciiOps.ops env
           (fst (@run AsciiOps.ops env)) tr
           Organization (Some "acme") (Integer 12)).
  reflexivity.
Defined.

(** C10 at a run the filter stops although its project URL does not match
    the pattern. *)
Lemma skip_precedes_url_validation_witness :
  let env := Sample.env "not a project url" "Done" "bug" "not" "acme"
                        Sample.board in
  UrlPattern.urlParse "not a project url" = None
  /\ @run AsciiOps.ops env
     = (inr tt,
        [CoreDebug "Issue/PR owner: acme";
         CoreInfo "Skipping issue 7 because it contains one of the labels: bug"])
  /\ requests (snd (@run AsciiOps.ops env)) = [].
Proof.
  intros env. split; [reflexivity|].
  apply (proj1 (@skip_precedes_url_validation AsciiOps.ops env
                  (Sample.inputsOf "not a project url" "Done" "bug" "not")
                  Sample.board (sample_provides _ _ _ _ _ _))).
  reflexivity.
Defined.

(** * Further properties of the code *)

(** ** The project URL pattern (lines 6-7) *)

Module PatternFacts.

Import UrlPattern.

Lemma append_assoc (a b c : string) : (a ++ b) ++ c = a ++ (b ++ c).
Proof. induction a as [|x a IH]; simpl; [reflexivity | now rewrite IH]. Qed.

Lemma literal_complete (p r : string) : literal p (p ++ r) = Some r.
Proof.
  induction p as [|a p IH]; simpl; [reflexivity|].
  now rewrite Ascii.eqb_refl.
Qed.

Lemma literal_sound (p s r : string) : literal p s = Some r -> s = p ++ r.
Proof.
  revert s. induction p as [|a p IH]; intros s; simpl.
  - intros H. now injection H as ->.
  - destruct s as [|b s]; [discriminate|].
    destruct (Ascii.eqb_spec a b) as [->|_]; [|discriminate].
    intros H. now rewrite (IH s H).
Qed.

Lemma span_append (cls : ascii -> bool) (s m r : string) :
  span cls s = (m, r) -> s = m ++ r.
Proof.
  revert m r. induction s as [|c s IH]; intros m r; simpl.
  - intros H. now injection H as <- <-.
  - destruct (cls c).
    + destruct (span cls s) as [m' r']. intros H. injection H as <- <-.
      simpl. now rewrite (IH m' r' eq_refl).
    + intros H. now injection H as <- <-.
Qed.

Lemma span_allOf (cls : ascii -> bool) (s m r : string) :
  span cls s = (m, r) -> allOf cls m = true /\ startsWith cls r = false.
Proof.
  revert m r. induction s as [|c s IH]; intros m r; simpl.
  - intros H. injection H as <- <-. auto.
  - destruct (cls c) eqn:Hc.
    + destruct (span cls s) as [m' r']. intros H. injection H as <- <-.
      simpl. rewrite Hc. now apply IH.
    + intros H. injection H as <- <-. simpl. auto.
Qed.

Lemma span_intro (cls : ascii -> bool) (m r : string) :
  allOf cls m = true -> startsWith cls r = false -> span cls (m ++ r) = (m, r).
Proof.
  intros Hm Hr. induction m as [|c m IH]; simpl in *.
  - destruct r as [|c r]; [reflexivity|]. simpl in *. now rewrite Hr.
  - apply andb_prop in Hm. destruct Hm as [Hc Hm].
    rewrite Hc, (IH Hm). reflexivity.
Qed.

Lemma plus_no_run {A : Type} (cls : ascii -> bool) (s r : string)
      (k : string -> string -> option A) :
  span cls s = ("", r) -> plus cls s k = None.
Proof.
  destruct s as [|c s]; simpl; [reflexivity|].
  destruct (cls c); [|reflexivity].
  destruct (span cls s). discriminate.
Qed.

(** The longest run is tried first. *)
Lemma plus_longest {A : Type} (cls : ascii -> bool) (s m r : string)
      (k : string -> string -> option A) (a : A) :
  span cls s = (m, r) -> m <> "" -> k m r = Some a ->
  plus cls s k = Some a.
Proof.
  revert m r k. induction s as [|c s IH]; intros m r k; simpl.
  - intros H. injection H as <- <-. congruence.
  - destruct (cls c); [|intros H; injection H as <- <-; congruence].
    destruct (span cls s) as [m' r'] eqn:Hs.
    intros H _ Hk. injection H as <- <-.
    destruct m' as [|c' m'].
    + rewrite (plus_no_run cls s r' _ Hs). simpl.
      apply span_append in Hs. simpl in Hs. now subst r'.
    + rewrite (IH (String c' m') r' (fun m0 r0 => k (String c m0) r0));
        [reflexivity | reflexivity | discriminate | exact Hk].
Qed.

(** Whatever [plus] returns comes from a non-empty run in the class. *)
Lemma plus_sound {A : Type} (cls : ascii -> bool) (s : string)
      (k : string -> string -> option A) (a : A) :
  plus cls s k = Some a ->
  exists m r, s = m ++ r /\ m <> "" /\ allOf cls m = true /\ k m r = Some a.
Proof.
  revert k. induction s as [|c s IH]; intros k; simpl; [discriminate|].
  destruct (cls c) eqn:Hc; [|discriminate].
  destruct (plus cls s (fun m r => k (String c m) r)) as [a'|] eqn:Hp; simpl.
  - intros H. injection H as ->.
    destruct (IH _ Hp) as (m & r & -> & _ & Hm & Hk).
    exists (String c m), r. simpl. rewrite Hm.
    split; [reflexivity|]. split; [discriminate|]. split; [|exact Hk].
    now rewrite Hc.
  - intros Hk. exists (String c ""), s. simpl.
    split; [reflexivity|]. split; [discriminate|]. split; [|exact Hk].
    now rewrite Hc.
Qed.

(** When the continuation accepts every run, [plus] returns what it makes of
    the longest one. *)
Lemma plus_total {A : Type} (cls : ascii -> bool) (s : string)
      (k : string -> string -> option A) (a : A) :
  (forall m r, k m r <> None) ->
  plus cls s k = Some a ->
  exists m r, span cls s = (m, r) /\ m <> "" /\ k m r = Some a.
Proof.
  intros Htotal Hp.
  destruct (span cls s) as [m r] eqn:Hs.
  destruct (plus_sound cls s k a Hp) as (m0 & r0 & -> & Hne & Hall & _).
  assert (Hm : m <> "").
  { destruct m0 as [|c m0]; [congruence|]. simpl in Hs, Hall.
    apply andb_prop in Hall. destruct Hall as [Hc _]. rewrite Hc in Hs.
    destruct (span cls (m0 ++ r0)). injection Hs as <- <-. discriminate. }
  exists m, r. repeat split; auto.
  destruct (k m r) as [b|] eqn:Hk; [|now destruct (Htotal m r)].
  rewrite (plus_longest cls _ m r k b Hs Hm Hk) in Hp. exact Hp.
Qed.

(** The part of the pattern after the owner kind [t] has been chosen. *)
Lemma owner_and_number (t s1 : string) (g : Groups) :
  match literal t s1 with
  | None => None
  | Some s2 =>
      match literal "/" s2 with
      | None => None
      | Some s3 =>
          plus notSlash s3 (fun name s4 =>
            match literal "/projects/" s4 with
            | None => None
            | Some s5 =>
                plus isDigit s5 (fun num _ =>
                  Some {| ownerType := t;
                          ownerName := name;
                          projectNumber := num |})
            end)
      end
  end = Some g
  <-> exists rest,
        ownerType g = t
        /\ ownerName g <> ""
        /\ allOf notSlash (ownerName g) = true
        /\ projectNumber g <> ""
        /\ allOf isDigit (projectNumber g) = true
        /\ startsWith isDigit rest = false
        /\ s1 = t ++ "/" ++ ownerName g ++ "/projects/"
                ++ projectNumber g ++ rest.
Proof.
  split.
  - destruct (literal t s1) as [s2|] eqn:H2; [|discriminate].
    apply literal_sound in H2. subst s1.
    destruct (literal "/" s2) as [s3|] eqn:H3; [|discriminate].
    apply literal_sound in H3. subst s2.
    intros H. apply plus_sound in H.
    destruct H as (name & s4 & -> & Hname & Hall & Hk).
    destruct (literal "/projects/" s4) as [s5|] eqn:H5; [|discriminate].
    apply literal_sound in H5. subst s4.
    apply plus_total in Hk; [|discriminate].
    destruct Hk as (num & rest & Hspan & Hnum & Hg).
    injection Hg as <-. cbn [ownerType ownerName projectNumber].
    exists rest. pose proof (span_allOf _ _ _ _ Hspan) as [Hd Hr].
    apply span_append in Hspan. subst s5.
    repeat split; auto.
  - intros (rest & Ht & Hname & Hall & Hnum & Hd & Hr & ->).
    destruct g as [ty name num]. cbn [ownerType ownerName projectNumber] in *.
    subst ty. rewrite literal_complete.
    change (literal "/" ("/" ++ name ++ "/projects/" ++ num ++ rest))
      with (Some (name ++ "/projects/" ++ num ++ rest)).
    apply plus_longest
      with (m := name) (r := "/projects/" ++ num ++ rest); auto.
    + now apply span_intro.
    + rewrite literal_complete.
      apply plus_longest with (m := num) (r := rest); auto.
      now apply span_intro.
Qed.

Lemma afterScheme_shape (s : string) (g : Groups) :
  afterScheme s = Some g
  <-> exists rest,
        (ownerType g = "orgs" \/ ownerType g = "users")
        /\ ownerName g <> ""
        /\ allOf notSlash (ownerName g) = true
        /\ projectNumber g <> ""
        /\ allOf isDigit (projectNumber g) = true
        /\ startsWith isDigit rest = false
        /\ s = "github.com/" ++ ownerType g ++ "/" ++ ownerName g
               ++ "/projects/" ++ projectNumber g ++ rest.
Proof.
  unfold afterScheme. split.
  - destruct (literal "github.com/" s) as [s1|] eqn:H1; [|discriminate].
    apply literal_sound in H1. subst s. cbv zeta. unfold orElse.
    match goal with
    | |- match ?first with _ => _ end = _ -> _ => destruct first eqn:E
    end.
    + intros H. injection H as ->. apply owner_and_number in E.
      destruct E as (rest & Ht & Hn & Ha & Hp & Hd & Hr & ->).
      exists rest. rewrite Ht. repeat split; auto.
    + intros H. apply owner_and_number in H.
      destruct H as (rest & Ht & Hn & Ha & Hp & Hd & Hr & ->).
      exists rest. rewrite Ht. repeat split; auto.
  - intros (rest & Hty & Hname & Hall & Hnum & Hd & Hr & ->).
    rewrite literal_complete. cbv zeta.
    assert (Hg : forall t, ownerType g = t ->
               match literal t (ownerType g ++ "/" ++ ownerName g
                                ++ "/projects/" ++ projectNumber g ++ rest) with
               | None => None
               | Some s2 =>
                   match literal "/" s2 with
                   | None => None
                   | Some s3 =>
                       plus notSlash s3 (fun name s4 =>
                         match literal "/projects/" s4 with
                         | None => None
                         | Some s5 =>
                             plus isDigit s5 (fun num _ =>
                               Some {| ownerType := t;
                                       ownerName := name;
                                       projectNumber := num |})
                         end)
                   end
               end = Some g).
    { intros t Ht. apply owner_and_number. exists rest. rewrite Ht.
      repeat split; auto. }
    destruct Hty as [Hty|Hty].
    + rewrite (Hg "orgs" Hty). reflexivity.
    + rewrite (Hg "users" Hty). rewrite Hty. reflexivity.
Qed.

End PatternFacts.

(** X1. The matcher accepts exactly the strings the pattern describes, and
    its named groups hold exactly the text the pattern captures: an optional
    [https://], [github.com/], the owner kind [orgs] or [users], a non-empty
    owner name without slash, [/projects/], and the longest non-empty run of
    decimal digits, followed by anything. *)
Theorem urlParse_matches_pattern (s : string) (g : UrlPattern.Groups) :
  UrlPattern.urlParse s = Some g <-> urlShape s g.
Proof.
  unfold UrlPattern.urlParse, urlShape, UrlPattern.orElse. split.
  - destruct (UrlPattern.literal "https://" s) as [r|] eqn:Hs.
    + apply PatternFacts.literal_sound in Hs. subst s.
      destruct (UrlPattern.afterScheme r) as [g'|] eqn:Hr.
      * intros H. injection H as ->.
        apply PatternFacts.afterScheme_shape in Hr.
        destruct Hr as (rest & Hty & Hn & Ha & Hp & Hd & Hrest & ->).
        exists "https://", rest. repeat split; auto.
      * intros H. apply PatternFacts.afterScheme_shape in H.
        destruct H as (rest & _ & _ & _ & _ & _ & _ & H). discriminate H.
    + intros H. apply PatternFacts.afterScheme_shape in H.
      destruct H as (rest & Hty & Hn & Ha & Hp & Hd & Hrest & ->).
      exists "", rest. repeat split; auto.
  - intros (scheme & rest & [->| ->] & Hty & Hn & Ha & Hp & Hd & Hrest & ->).
    + change (UrlPattern.literal "https://" _) with (@None string).
      apply PatternFacts.afterScheme_shape. exists rest. repeat split; auto.
    + rewrite PatternFacts.literal_complete.
      assert (H : UrlPattern.afterScheme
                    ("github.com/" ++ UrlPattern.ownerType g ++ "/"
                     ++ UrlPattern.ownerName g ++ "/projects/"
                     ++ UrlPattern.projectNumber g ++ rest) = Some g)
        by (apply PatternFacts.afterScheme_shape; exists rest;
            repeat split; auto).
      rewrite H. reflexivity.
Qed.

(** ** From the URL to the lookup (lines 119-149) *)

Lemma parseDigits_some (a : N) (s : string) :
  exists n, parseDigits (Some a) s = Some n.
Proof.
  revert a. induction s as [|c s IH]; intros a; simpl.
  - now exists a.
  - destruct (isDigit c); [apply IH | now exists a].
Qed.

Lemma parseInt10_digits (s : string) :
  s <> "" -> allOf isDigit s = true -> exists n, parseInt10 s = Some n.
Proof.
  destruct s as [|c s]; [congruence|]. intros _ H. simpl in H.
  apply andb_prop in H. destruct H as [Hc _].
  unfold parseInt10. simpl. rewrite Hc. apply parseDigits_some.
Qed.

Lemma matched_groups_accepted (s : string) (g : UrlPattern.Groups) :
  UrlPattern.urlParse s = Some g ->
  (exists q,
      mustGetOwnerTypeQuery (Some (UrlPattern.ownerType g)) = inr q
      /\ (q = Organization <-> UrlPattern.ownerType g = "orgs")
      /\ (q = User <-> UrlPattern.ownerType g = "users"))
  /\ (exists n, parseInt10 (UrlPattern.projectNumber g) = Some n)
  /\ parseInt (UrlPattern.projectNumber g) <> NaN.
Proof.
  intros H. apply urlParse_matches_pattern in H.
  destruct H as (scheme & rest & _ & Hty & _ & _ & Hne & Hd & _ & _).
  split; [|split; [now apply parseInt10_digits|]].
  - destruct Hty as [Hty|Hty]; rewrite Hty.
    + exists Organization. repeat split; auto; discriminate.
    + exists User. repeat split; auto; discriminate.
  - destruct (parseInt10_digits _ Hne Hd) as [n Hn].
    unfold parseInt, toNumber. rewrite Hn.
    destruct (n <=? exactLimit)%N; discriminate.
Qed.

Lemma parseInt_exact (s : string) (n : N) :
  parseInt10 s = Some n -> (n <= exactLimit)%N -> parseInt s = Integer n.
Proof.
  intros Hn Hle. unfold parseInt, toNumber. rewrite Hn.
  apply N.leb_le in Hle. now rewrite Hle.
Qed.

(** X2. On the groups of a project URL that matched the pattern,
    [mustGetOwnerTypeQuery] never throws ([orgs] gives the organization
    query, [users] the user query) and [parseInt] reads an integer and never
    yields [NaN]: within [addToProject] the unsupported-owner error cannot
    occur. *)
Theorem matched_url_never_unsupported (s : string) (g : UrlPattern.Groups) :
  UrlPattern.urlParse s = Some g ->
  (exists q,
      mustGetOwnerTypeQuery (Some (UrlPattern.ownerType g)) = inr q
      /\ (q = Organization <-> UrlPattern.ownerType g = "orgs")
      /\ (q = User <-> UrlPattern.ownerType g = "users"))
  /\ (exists n, parseInt10 (UrlPattern.projectNumber g) = Some n)
  /\ parseInt (UrlPattern.projectNumber g) <> NaN.
Proof. apply matched_groups_accepted. Qed.

Lemma matched_url_never_unsupported_witness :
  (exists q,
      mustGetOwnerTypeQuery (Some "users") = inr q
      /\ (q = Organization <-> "users" = "orgs")
      /\ (q = User <-> "users" = "users"))
  /\ (exists n, parseInt10 "007" = Some n)
  /\ parseInt "007" <> NaN.
Proof.
  apply (matched_url_never_unsupported
           "github.com/users/octo-cat/projects/007/views/1"
           {| UrlPattern.ownerType := "users";
              UrlPattern.ownerName := "octo-cat";
              UrlPattern.projectNumber := "007" |}).
  reflexivity.
Defined.

Section MoreRuns.

Context {ops : StringOps}.

(** X3. A run that passes the label filter with a project URL that matches
    the pattern sends the project lookup first, for the owner kind and the
    owner name captured from the URL and for the Number [parseInt] makes of
    the captured digits: never [NaN], and the exact value of the digits
    whenever that value is at most 2^53. *)
Theorem lookup_sent_for_matched_url (env : Env) (i : Inputs)
        (octokit : Octokit) (g : UrlPattern.Groups) :
  provides env i octokit ->
  passedFilter (snd (run env)) ->
  UrlPattern.urlParse (projectUrl i) = Some g ->
  exists q rest,
    requests (snd (run env))
    = GetProject q (Some (UrlPattern.ownerName g))
                 (parseInt (UrlPattern.projectNumber g)) :: rest
    /\ mustGetOwnerTypeQuery (Some (UrlPattern.ownerType g)) = inr q
    /\ parseInt (UrlPattern.projectNumber g) <> NaN
    /\ (forall n,
           parseInt10 (UrlPattern.projectNumber g) = Some n ->
           (n <= exactLimit)%N ->
           parseInt (UrlPattern.projectNumber g) = Integer n).
Proof.
  intros H Hpass Hurl.
  apply (passedFilter_iff env i octokit H) in Hpass.
  rewrite (run_filter env i octokit H), Hpass.
  destruct (matched_groups_accepted _ _ Hurl) as ((q & Hq & _) & _ & Hnan).
  exists q. unfold_run. rewrite Hurl, Hq. split_run.
  all: eexists; split; [reflexivity|]; split; [reflexivity|].
  all: split; [exact Hnan | apply parseInt_exact].
Qed.

(** X4. The requests of every run are an initial part of the sequence
    project lookup, item creation, field lookup, column update, iteration
    lookup, iteration update: at most six requests, each step at most once,
    never out of order, never repeated after a failure. *)
Theorem requests_follow_the_steps (env : Env) :
  exists remaining,
    (map stepOf (requests (snd (run env))) ++ remaining)%list = allSteps.
Proof.
  unfold_run. split_run. all: eexists; reflexivity.
Qed.

(** X5. A rejected request ends the run: the run fails with the rejection,
    and the rejected request is the last thing it did (nothing is sent,
    logged or published after it). *)
Theorem rejection_ends_the_run (env : Env) (request : Request) (e : Exn) :
  In (Graphql request (inl e)) (snd (run env)) ->
  fst (run env) = inl e
  /\ exists before, snd (run env) = (before ++ [Graphql request (inl e)])%list.
Proof.
  unfold_run. split_run.
  all: intros Hin; find_event Hin.
  all: injection Hin as <- <-.
  all: split; [reflexivity|].
  all: match goal with
       | |- exists before, ?tr = _ => exists (removelast tr); reflexivity
       end.
Qed.

(** X6. The only output a run publishes is [itemId], and it publishes it
    once after each mutation that is answered, with the identifier that
    answer carries: what was published is, in order, what the answered
    mutations returned. *)
Theorem outputs_are_returned_item_ids (env : Env) :
  outputs (snd (run env))
  = map (fun i => ("itemId", i)) (returnedItemIds (snd (run env))).
Proof.
  unfold_run. split_run. all: reflexivity.
Qed.

End MoreRuns.

Lemma lookup_sent_for_matched_url_witness :
  let env := Sample.env Sample.acmeUrl "Done" "" "" "acme" Sample.board in
  exists q rest,
    requests (snd (@run AsciiOps.ops env))
    = GetProject q (Some "acme") (parseInt "12") :: rest
    /\ mustGetOwnerTypeQuery (Some "orgs") = inr q
    /\ parseInt "12" <> NaN
    /\ (forall n,
           parseInt10 "12" = Some n -> (n <= exactLimit)%N ->
           parseInt "12" = Integer n).
Proof.
  intros env.
  apply (@lookup_sent_for_matched_url AsciiOps.ops env
           (Sample.inputsOf Sample.acmeUrl "Done" "" "") Sample.board
           {| UrlPattern.ownerType := "orgs";
              UrlPattern.ownerName := "acme";
              UrlPattern.projectNumber := "12" |}).
  - apply sample_provides.
  - exists Sample.acmeUrl. vm_compute. auto.
  - reflexivity.
Defined.

Lemma rejection_ends_the_run_witness :
  let env :=
    Sample.env Sample.acmeUrl "Done" "" "" "acme" Sample.boardRejecting in
  let request := GetProject Organization (Some "acme") (Integer 12) in
  let e := RequestError "Could not resolve to a ProjectV2" in
  fst (@run AsciiOps.ops env) = inl e
  /\ exists before,
       snd (@run AsciiOps.ops env) = (before ++ [Graphql request (inl e)])%list.
Proof.
  intros env request e.
  apply (@rejection_ends_the_run AsciiOps.ops env request e).
  vm_compute. auto 10.
Defined.


(** ** What a run sends and publishes *)
Section RunData.

Context {ops : StringOps}.

(** X7. A run that returns normally either was stopped by the label filter,
    and then sent no request and published nothing, or went past the filter
    and through all six steps with every request answered, and then published
    [itemId] three times. *)
Theorem normal_return_is_skip_or_complete (env : Env) :
  fst (run env) = inr tt ->
  (~ passedFilter (snd (run env))
   /\ requests (snd (run env)) = [] /\ outputs (snd (run env)) = [])
  \/ (passedFilter (snd (run env))
      /\ map stepOf (requests (snd (run env))) = allSteps
      /\ (forall request answer,
             In (Graphql request answer) (snd (run env)) ->
             exists r, answer = inr r)
      /\ exists created moved assigned,
           outputs (snd (run env))
           = [("itemId", created); ("itemId", moved); ("itemId", assigned)]).
Proof.
  unfold_run. split_run.
  all: intros Hok; try discriminate Hok.
  all: first
         [ left; split; [|split; reflexivity];
           intros [url Hin]; find_event Hin
         | right; split; [eexists; trace_member|];
           split; [reflexivity|]; split;
           [ intros request answer Hin; find_event Hin;
             injection Hin as <- <-; eexists; reflexivity
           | do 3 eexists; reflexivity ] ].
Qed.

(** X8. Every request after the lookup carries the project id read off the
    lookup's answer (line 151), and both field updates carry the item id the
    item-creation mutation returned. *)
Theorem ids_flow_from_answers (env : Env) (request : Request) :
  In request (requests (snd (run env))) ->
  (forall pid, projectIdOf request = Some pid ->
               lookedUpProjectId (snd (run env)) = Some pid)
  /\ (forall itemId, itemIdOf request = Some itemId ->
                     hd_error (returnedItemIds (snd (run env))) = Some itemId).
Proof.
  unfold_run. split_run.
  all: intros Hin; find_request Hin.
  all: subst request; split; intros x Hx; cbn in Hx; try discriminate Hx.
  all: injection Hx as <-; reflexivity.
Qed.

(** X9. When the payload has no [repository], the owner comparison of
    line 161 is false: a run never sends the attach mutation, and creates a
    draft issue whenever it reaches the item creation. *)
Theorem no_repository_never_attaches (env : Env) (request : Request) :
  Payload.repository (payload env) = None ->
  In request (requests (snd (run env))) ->
  stepOf request = ItemCreation ->
  exists pid,
    request
    = AddDraftIssueToProject
        pid (optionalChain (triggeringContent (payload env)) Payload.html_url).
Proof.
  intros Hrepo. unfold_run. unfold repositoryOwner. rewrite Hrepo.
  cbn [option_map strictEq]. split_run.
  all: intros Hin; find_request Hin.
  all: subst request; intros Hstep; try discriminate Hstep.
  all: eexists; reflexivity.
Qed.

(** X10. When the payload has neither [issue] nor [pull_request], the
    content has no label, and a run that reaches the item creation sends it
    with an undefined content id (attach) or an undefined title (draft). *)
Theorem no_content_sends_undefined (env : Env) (request : Request) :
  Payload.issue (payload env) = None ->
  Payload.pull_request (payload env) = None ->
  contentLabels (triggeringContent (payload env)) = []
  /\ (In request (requests (snd (run env))) ->
      stepOf request = ItemCreation ->
      exists pid,
        request = AddIssueToProject pid None
        \/ request = AddDraftIssueToProject pid None).
Proof.
  intros Hissue Hpull. unfold_run. unfold triggeringContent.
  rewrite Hissue, Hpull. cbn [contentLabels map optionalChain option_map].
  split; [reflexivity|]. split_run.
  all: intros Hin; find_request Hin.
  all: subst request; intros Hstep; try discriminate Hstep.
  all: eexists; first [left; reflexivity | right; reflexivity].
Qed.

(** X11. A run depends on the [issue] and [pull_request] members of the
    payload only through the content line 93 picks: the issue when there is
    one, whatever the pull request is, and otherwise the pull request, which
    is then treated exactly as an issue would be. *)
Theorem only_the_chosen_content_matters (env : Env) (c : Payload.Content)
        (pr : option Payload.Content) :
  triggeringContent (payload env) = Some c ->
  run (withContent env (Some c) pr) = run env
  /\ run (withContent env None (Some c)) = run env.
Proof.
  intros H. unfold run, addToProject, withContent, repositoryOwner.
  cbn [getInput getOctokit payload Payload.repository triggeringContent
       Payload.issue Payload.pull_request].
  fold (triggeringContent (payload env)). rewrite H.
  split; reflexivity.
Qed.

(** X12. When the field has options with the configured name, the column
    update carries the identifier of the first of them, and the field lookup
    that precedes it asked for the configured field name. *)
Theorem first_matching_option_sent (env : Env) (configured : string)
        (pid : option string) (fname : string)
        (r : ProjectV2GetFieldAndOptionResponse.t)
        (before after : list FieldOption.t) (o : FieldOption.t) :
  getInput env "field-option" true = inr configured ->
  In (Graphql (GetOptionField pid fname) (inr (ProjectV2GetFieldAndOption r)))
     (snd (run env)) ->
  let field :=
    SingleSelectFieldNode.field (ProjectV2GetFieldAndOptionResponse.node r) in
  SingleSelectField.options field = (before ++ o :: after)%list ->
  (forall x, In x before -> FieldOption.name x <> configured) ->
  FieldOption.name o = configured ->
  getInput env "field-name" true = inr fname
  /\ exists itemId,
       filter isColumnUpdate (requests (snd (run env)))
       = [AddIssueToColumn pid itemId (SingleSelectField.id field)
                           (Some (FieldOption.id o))].
Proof.
  intros Hget Hin field Hoptions Hbefore Hname.
  assert (Hfind : findFieldOption (SingleSelectField.options field) configured
                  = Some (FieldOption.id o)).
  { unfold findFieldOption, find. rewrite Hoptions.
    clear Hoptions. induction before as [|x before IH]; simpl.
    - apply String.eqb_eq in Hname. now rewrite Hname.
    - destruct (String.eqb_spec (FieldOption.name x) configured) as [E|_].
      + exfalso. apply (Hbefore x); [now left | exact E].
      + apply IH. intros y Hy. apply Hbefore. now right. }
  subst field. clear Hoptions Hbefore Hname.
  revert Hin. unfold_run. rewrite Hget. split_run.
  all: intros Hin; find_event Hin.
  all: injection Hin as <- <- <-.
  all: rewrite Hfind; split; [reflexivity|]; eexists; reflexivity.
Qed.

(** X13. The iteration update carries the identifier of the field the
    iteration lookup returned and the identifier of the iteration the
    reduction of lines 277-279 selects among the iterations of that field. *)
Theorem iteration_update_sends_selection (env : Env) (pid : option string)
        (itemId fieldId iterationId : string) :
  In (AddIssueToIteration pid itemId fieldId iterationId)
     (requests (snd (run env))) ->
  exists field chosen,
    iterationAnswer (snd (run env)) = Some field
    /\ fieldId = IterationField.id field
    /\ selectIteration (iterations (IterationField.configuration field))
       = inr chosen
    /\ iterationId = IterationItem.id chosen.
Proof.
  unfold_run. split_run.
  all: intros Hin; find_request Hin.
  all: injection Hin as <- <- <- <-.
  all: do 2 eexists; split; [reflexivity|]; split; [reflexivity|].
  all: split; [eassumption | reflexivity].
Qed.

End RunData.

(** ** Witnesses for the run properties *)

Lemma normal_return_is_skip_or_complete_witness :
  let env := Sample.env Sample.acmeUrl "Done" "" "" "acme" Sample.board in
  let tr := snd (@run AsciiOps.ops env) in
  (~ passedFilter tr /\ requests tr = [] /\ outputs tr = [])
  \/ (passedFilter tr
      /\ map stepOf (requests tr) = allSteps
      /\ (forall request answer,
             In (Graphql request answer) tr -> exists r, answer = inr r)
      /\ exists created moved assigned,
           outputs tr
           = [("itemId", created); ("itemId", moved); ("itemId", assigned)]).
Proof.
  intros env tr.
  apply (@normal_return_is_skip_or_complete AsciiOps.ops env).
  reflexivity.
Defined.

Lemma ids_flow_from_answers_witness :
  let env :=
    Sample.env Sample.acmeUrl "Done" "" "" "someone-else" Sample.board in
  let tr := snd (@run AsciiOps.ops env) in
  let request := AddIssueToIteration (Some "P1") "I_draft" "F_iter" "b" in
  (forall pid, projectIdOf request = Some pid ->
               lookedUpProjectId tr = Some pid)
  /\ (forall itemId, itemIdOf request = Some itemId ->
                     hd_error (returnedItemIds tr) = Some itemId).
Proof.
  intros env tr request.
  apply (@ids_flow_from_answers AsciiOps.ops env request).
  vm_compute. auto 10.
Defined.

Lemma no_repository_never_attaches_witness :
  let env :=
    Sample.envOn Sample.eventWithoutRepository Sample.acmeUrl "Done" "" ""
                 Sample.board in
  exists pid,
    AddDraftIssueToProject (Some "P1")
                           (Some "https://github.com/acme/repo/issues/7")
    = AddDraftIssueToProject
        pid (optionalChain (triggeringContent (payload env)) Payload.html_url).
Proof.
  intros env.
  apply (@no_repository_never_attaches AsciiOps.ops env
           (AddDraftIssueToProject
              (Some "P1") (Some "https://github.com/acme/repo/issues/7"))).
  - reflexivity.
  - vm_compute. auto 10.
  - reflexivity.
Defined.

Lemma no_content_sends_undefined_witness :
  let env :=
    Sample.envOn Sample.eventWithoutContent Sample.acmeUrl "Done" "" ""
                 Sample.board in
  let request := AddIssueToProject (Some "P1") None in
  @contentLabels AsciiOps.ops (triggeringContent (payload env)) = []
  /\ (In request (requests (snd (@run AsciiOps.ops env))) ->
      stepOf request = ItemCreation ->
      exists pid,
        request = AddIssueToProject pid None
        \/ request = AddDraftIssueToProject pid None).
Proof.
  intros env request.
  apply (@no_content_sends_undefined AsciiOps.ops env request);
    reflexivity.
Defined.

Lemma only_the_chosen_content_matters_witness :
  let env := Sample.env Sample.acmeUrl "Done" "bug" "" "acme" Sample.board in
  @run AsciiOps.ops
       (withContent env (Some Sample.bugIssue) (Some Sample.featurePull))
  = @run AsciiOps.ops env
  /\ @run AsciiOps.ops (withContent env None (Some Sample.bugIssue))
     = @run AsciiOps.ops env.
Proof.
  intros env.
  apply (@only_the_chosen_content_matters AsciiOps.ops env Sample.bugIssue
           (Some Sample.featurePull)).
  reflexivity.
Defined.

Lemma first_matching_option_sent_witness :
  let env := Sample.env Sample.acmeUrl "Done" "" "" "acme"
               (Sample.client (inr (Sample.projectOfOrg "P1"))
                              Sample.twiceDone Sample.twoIterations) in
  getInput env "field-name" true = inr "Status"
  /\ exists itemId,
       filter isColumnUpdate (requests (snd (@run AsciiOps.ops env)))
       = [AddIssueToColumn (Some "P1") itemId "F_status" (Some "opt2")].
Proof.
  intros env.
  apply (@first_matching_option_sent AsciiOps.ops env "Done" (Some "P1")
           "Status" (Sample.statusField Sample.twiceDone)
           [ {| FieldOption.id := "opt1"; FieldOption.name := "Todo" |} ]
           [ {| FieldOption.id := "opt3"; FieldOption.name := "Done" |} ]
           {| FieldOption.id := "opt2"; FieldOption.name := "Done" |}).
  - reflexivity.
  - vm_compute. auto 20.
  - reflexivity.
  - intros x [<-|[]]. discriminate.
  - reflexivity.
Defined.

Lemma iteration_update_sends_selection_witness :
  let env := Sample.env Sample.acmeUrl "Done" "" "" "acme" Sample.board in
  exists field chosen,
    iterationAnswer (snd (@run AsciiOps.ops env)) = Some field
    /\ "F_iter" = IterationField.id field
    /\ selectIteration (iterations (IterationField.configuration field))
       = inr chosen
    /\ "b" = IterationItem.id chosen.
Proof.
  intros env.
  apply (@iteration_update_sends_selection AsciiOps.ops env
           (Some "P1") "I_item" "F_iter" "b").
  vm_compute. auto 10.
Defined.

(** ** Iteration selection does not depend on the order of distinct dates *)

Lemma gt_neither_eq (s t : string) :
  gt s t = false -> gt t s = false -> s = t.
Proof.
  unfold gt. rewrite (String.compare_antisym t s).
  destruct (String.compare s t) eqn:E; simpl; try discriminate.
  intros _ _. now apply String.compare_eq_iff.
Qed.

Lemma selectIteration_latest (its : list IterationItem.t)
      (chosen : IterationItem.t) :
  selectIteration its = inr chosen ->
  In chosen its
  /\ forall x, In x its ->
       gt (IterationItem.startDate x) (IterationItem.startDate chosen) = false.
Proof.
  intros Hsel.
  assert (Hne : its <> []) by (intros ->; discriminate Hsel).
  destruct (selectIteration_last_latest its Hne)
    as (c & before & after & Hc & Hits & Hbefore & Hafter).
  rewrite Hsel in Hc. injection Hc as <-.
  split.
  - rewrite Hits. apply in_or_app. right. now left.
  - intros x Hx. rewrite Hits in Hx. apply in_app_or in Hx.
    destruct Hx as [Hx|[<-|Hx]].
    + auto.
    + apply StringOrder.gt_irrefl.
    + apply StringOrder.gt_asym. auto.
Qed.

Lemma distinct_dates_injective (its : list IterationItem.t)
      (x y : IterationItem.t) :
  NoDup (map IterationItem.startDate its) ->
  In x its -> In y its ->
  IterationItem.startDate x = IterationItem.startDate y -> x = y.
Proof.
  induction its as [|z its IH]; simpl; [tauto|].
  intros Hnd Hx Hy Heq. inversion Hnd as [|? ? Hnotin Hnd']; subst.
  destruct Hx as [->|Hx], Hy as [->|Hy]; auto.
  - exfalso. apply Hnotin. rewrite Heq. now apply in_map.
  - exfalso. apply Hnotin. rewrite <- Heq. now apply in_map.
Qed.

(** X14. When no two iterations have the same [startDate] (the situation
    the comment of line 276 expects), the selection does not depend on the
    order in which the iterations are returned: any rearrangement of the list
    selects the same iteration, or throws the same error when it is empty. *)
Theorem selection_ignores_order (its its' : list IterationItem.t) :
  Permutation its its' ->
  NoDup (map IterationItem.startDate its) ->
  selectIteration its' = selectIteration its.
Proof.
  intros Hperm Hnd.
  destruct its as [|x rest].
  - apply Permutation_nil in Hperm. now subst.
  - destruct its' as [|x' rest'].
    + apply Permutation_sym, Permutation_nil in Hperm. discriminate.
    + destruct (selectIteration (x :: rest)) as [e|c] eqn:Hc;
        [discriminate|].
      destruct (selectIteration (x' :: rest')) as [e|c'] eqn:Hc';
        [discriminate|].
      apply selectIteration_latest in Hc, Hc'.
      destruct Hc as [Hin Hmax], Hc' as [Hin' Hmax'].
      f_equal. apply (distinct_dates_injective (x :: rest)); auto.
      * apply (Permutation_in _ (Permutation_sym Hperm)). exact Hin'.
      * apply gt_neither_eq.
        -- apply Hmax. apply (Permutation_in _ (Permutation_sym Hperm)).
           exact Hin'.
        -- apply Hmax'. apply (Permutation_in _ Hperm). exact Hin.
Qed.

Lemma selection_ignores_order_witness :
  selectIteration (rev Sample.twoIterations)
  = selectIteration Sample.twoIterations.
Proof.
  apply (selection_ignores_order Sample.twoIterations
           (rev Sample.twoIterations)).
  - apply Permutation_rev.
  - repeat constructor; simpl; intuition discriminate.
Defined.

(** ** The [labeled] input (lines 83-88) *)

Lemma split_pieces (sep : ascii) (s piece : string) :
  In piece (split sep s) -> allOf (fun c => negb (Ascii.eqb c sep)) piece = true.
Proof.
  revert piece. induction s as [|c s IH]; intros piece; simpl.
  - intros [<-|[]]. reflexivity.
  - destruct (Ascii.eqb c sep) eqn:Hc.
    + intros [<-|H]; [reflexivity | now apply IH].
    + destruct (split sep s) as [|w ws] eqn:Hs.
      * intros [<-|[]]. simpl. now rewrite Hc.
      * intros [<-|H].
        -- simpl. rewrite Hc. simpl. apply IH. now left.
        -- apply IH. now right.
Qed.

Lemma split_join (sep : ascii) (s : string) :
  join (String sep "") (split sep s) = s.
Proof.
  unfold join. induction s as [|c s IH]; simpl; [reflexivity|].
  destruct (Ascii.eqb_spec c sep) as [->|Hc].
  - destruct (split sep s) as [|w ws] eqn:Hs.
    + destruct s; simpl in Hs; [discriminate|].
      destruct (Ascii.eqb a sep); [discriminate|].
      destruct (split sep s); discriminate.
    + change (String.concat (String sep "") ("" :: w :: ws))
        with (String sep (String.concat (String sep "") (w :: ws))).
      now rewrite IH.
  - destruct (split sep s) as [|w ws] eqn:Hs.
    + simpl in IH. now subst.
    + destruct ws as [|w' ws].
      * simpl in *. now subst.
      * change (String.concat (String sep "") (String c w :: w' :: ws))
          with (String c (String.concat (String sep "") (w :: w' :: ws))).
        now rewrite IH.
Qed.

Section Labels.

Context {ops : StringOps}.

(** X15. The [labeled] input is cut at its commas, and putting the pieces
    back with commas gives the input again; every configured label is the
    trimmed, lower-cased form of one of those comma-free pieces, and no
    configured label is empty (so empty entries, as in ["a,,b,"], configure
    nothing). *)
Theorem configured_labels_come_from_pieces (input : string) :
  join "," (split "," input) = input
  /\ forall l, In l (parseLabeled input) ->
       l <> ""
       /\ exists piece,
            In piece (split "," input)
            /\ allOf (fun c => negb (Ascii.eqb c ",")) piece = true
            /\ l = toLowerCase (trim piece).
Proof.
  split; [apply split_join|].
  intros l Hl. unfold parseLabeled in Hl.
  apply filter_In in Hl. destruct Hl as [Hl Hlen].
  apply in_map_iff in Hl. destruct Hl as (piece & <- & Hpiece).
  split.
  - intros E. rewrite E in Hlen. discriminate.
  - exists piece. repeat split; auto. now apply (split_pieces "," input).
Qed.

(** X16. When no label is configured, a run that reaches the filter goes
    past it whatever the operator and whatever the labels of the content. *)
Theorem no_configured_label_always_passes (env : Env) (i : Inputs)
        (octokit : Octokit) :
  provides env i octokit ->
  parseLabeled (labeledInput i) = [] ->
  passedFilter (snd (run env)).
Proof.
  intros H Hnil. apply (passedFilter_iff env i octokit H).
  rewrite Hnil. unfold labelFilter.
  destruct (_ =? "and"); [reflexivity|].
  destruct (_ =? "not"); reflexivity.
Qed.

(** X17. A run logs, sends or publishes something only if it has read its
    six inputs and obtained its client: then its first event is the owner
    line; otherwise it fails and nothing at all has happened. *)
Theorem nothing_happens_without_inputs (env : Env) :
  (forall i octokit,
      provides env i octokit ->
      hd_error (snd (run env)) = Some (ownerLine env))
  /\ ((forall i octokit, ~ provides env i octokit) ->
      failed (fst (run env)) /\ snd (run env) = []).
Proof.
  split.
  - intros i octokit H. rewrite (run_filter env i octokit H).
    destruct (labelFilter _ _ _ _); [reflexivity|].
    unfold_run. split_run. all: reflexivity.
  - intros Hno. unfold run, addToProject, bind, lift.
    destruct (getInput env "project-url" true) as [e|a1] eqn:E1;
      [split; [eexists|]; reflexivity|].
    destruct (getInput env "github-token" true) as [e|a2] eqn:E2;
      [split; [eexists|]; reflexivity|].
    destruct (getInput env "field-name" true) as [e|a3] eqn:E3;
      [split; [eexists|]; reflexivity|].
    destruct (getInput env "field-option" true) as [e|a4] eqn:E4;
      [split; [eexists|]; reflexivity|].
    destruct (getInput env "labeled" false) as [e|a5] eqn:E5;
      [split; [eexists|]; reflexivity|].
    destruct (getInput env "label-operator" false) as [e|a6] eqn:E6;
      [split; [eexists|]; reflexivity|].
    destruct (getOctokit env a2) as [e|octokit] eqn:E7;
      [split; [eexists|]; reflexivity|].
    exfalso.
    apply (Hno {| projectUrl := a1; ghToken := a2; fieldName := a3;
                  fieldOptionName := a4; labeledInput := a5;
                  labelOperatorInput := a6 |} octokit).
    repeat split; assumption.
Qed.

End Labels.

(** X18. With at least one configured label, the operator [not] lets pass
    exactly the contents the default operator stops, and every content the
    operator [and] lets pass is let pass by the default operator too. *)
Theorem operators_compared (op : string) (labeled present : list string)
        (number : option N) :
  labeled <> [] -> op <> "and" -> op <> "not" ->
  (labelFilter "not" labeled present number = None
   <-> labelFilter op labeled present number <> None)
  /\ (labelFilter "and" labeled present number = None ->
      labelFilter op labeled present number = None).
Proof.
  intros Hne Hand Hnot.
  rewrite labelFilter_not, labelFilter_and, (labelFilter_or op); auto.
  split.
  - split.
    + intros [Hnil|Hdisj] [Hnil'|(l & Hl & Hp)]; try congruence.
      now apply (Hdisj l).
    + intros H. right. intros l Hl Hp. apply H. right. now exists l.
  - intros Hall. right. destruct labeled as [|l rest]; [congruence|].
    exists l. split; [now left | apply Hall; now left].
Qed.

Lemma configured_labels_come_from_pieces_witness :
  join "," (split "," " Bug, ,urgent ,,") = " Bug, ,urgent ,,"
  /\ forall l, In l (@parseLabeled AsciiOps.ops " Bug, ,urgent ,,") ->
       l <> ""
       /\ exists piece,
            In piece (split "," " Bug, ,urgent ,,")
            /\ allOf (fun c => negb (Ascii.eqb c ",")) piece = true
            /\ l = @toLowerCase AsciiOps.ops (@trim AsciiOps.ops piece).
Proof.
  apply (@configured_labels_come_from_pieces AsciiOps.ops " Bug, ,urgent ,,").
Defined.

Lemma no_configured_label_always_passes_witness :
  let env :=
    Sample.env Sample.acmeUrl "Done" " , ," "and" "acme" Sample.board in
  passedFilter (snd (@run AsciiOps.ops env)).
Proof.
  intros env.
  apply (@no_configured_label_always_passes AsciiOps.ops env
           (Sample.inputsOf Sample.acmeUrl "Done" " , ," "and") Sample.board).
  - apply sample_provides.
  - reflexivity.
Defined.

Lemma nothing_happens_without_inputs_witness :
  failed (fst (@run AsciiOps.ops Sample.envWithoutToken))
  /\ snd (@run AsciiOps.ops Sample.envWithoutToken) = [].
Proof.
  apply (proj2 (@nothing_happens_without_inputs AsciiOps.ops
                  Sample.envWithoutToken)).
  intros i octokit (_ & H & _). vm_compute in H. discriminate H.
Defined.

Lemma operators_compared_witness :
  (labelFilter "not" ["bug"] ["bug"; "docs"] (Some 7%N) = None
   <-> labelFilter "or" ["bug"] ["bug"; "docs"] (Some 7%N) <> None)
  /\ (labelFilter "and" ["bug"] ["bug"; "docs"] (Some 7%N) = None ->
      labelFilter "or" ["bug"] ["bug"; "docs"] (Some 7%N) = None).
Proof.
  apply (operators_compared "or" ["bug"] ["bug"; "docs"] (Some 7%N));
    discriminate.
Defined.
